(** * bankroll.model.instrument: a shallow embedding and its properties

    The development follows [bankroll/model/instrument.py].  Python values
    are modelled as follows.

    - [str] is [string]; comparison of strings is the lexicographic
      comparison of character codes ([String.ltb]).
    - An exception raised by a constructor is the left injection of a sum;
      the constructed instance is the right injection.
    - [decimal.Decimal] is a sign, a coefficient and an exponent, or one of
      the special values, and the operations of the [decimal] module that
      the source calls ([is_finite], comparison with zero, [quantize],
      multiplication, [format]) are written out under the module's default
      context (28 digits of precision, ROUND_HALF_EVEN, Emax = 999999,
      Emin = -999999, traps on InvalidOperation and Overflow), which the
      source never changes.
    - [datetime.date] is a record of year, month and day. *)

From Stdlib Require Import String Ascii ZArith NArith QArith Qabs Qpower List Bool Lia Lqa.
Import ListNotations.

Local Open Scope string_scope.
Local Open Scope Z_scope.

(** ** Values and exceptions *)

(** Modelled from the spec: the [Currency] enumeration of
    [bankroll/model/cash.py], which is not among the sources.  The spec
    describes it as an enumerated monetary unit with a name (its code), and
    names the members USD and EUR. *)
Inductive Currency : Set := USD | EUR | GBP | JPY | CAD | CHF | AUD | NZD.

(** The decimal values of Python: [(-1)^sign * coeff * 10^exp], the two
    infinities, and the quiet and signalling NaNs. *)
Inductive Decimal : Set :=
| Finite (sign : bool) (coeff : N) (exp : Z)
| Infinity (sign : bool)
| NaN (sign : bool) (signaling : bool).

(** The [ValueError]s the source raises, one constructor per [raise]
    statement, carrying the value the message is formatted with. *)
Inductive ValueError : Set :=
| EmptySymbol                                   (* 'Expected non-empty symbol for instrument' *)
| MissingCurrency                               (* 'Expected currency for instrument' *)
| InvalidCUSIP (symbol : string)                (* 'Expected symbol to be a bond CUSIP: {symbol}' *)
| EmptyUnderlying                               (* 'Expected non-empty underlying symbol for Option' *)
| NonPositiveStrike (strike : Decimal)          (* 'Expected positive strike price: {strike}' *)
| NonPositiveMultiplier (multiplier : Decimal)  (* 'Expected positive multiplier: {multiplier}' *)
| IdenticalForexCurrencies (base quote : Currency).
                                                (* 'Forex pair must be composed of different currencies, ...' *)

Inductive Exception : Set :=
| Value_Error (e : ValueError)
| InvalidOperation        (* decimal.InvalidOperation, trapped by the default context *)
| Overflow.               (* decimal.Overflow, trapped by the default context *)

Definition result (A : Type) : Type := (Exception + A)%type.

Definition Return {A : Type} (a : A) : result A := inr a.
Definition Raise {A : Type} (e : Exception) : result A := inl e.

Definition bind {A B : Type} (m : result A) (k : A -> result B) : result B :=
  match m with
  | inl e => inl e
  | inr a => k a
  end.

Notation "x <- m ;; k" := (bind m (fun x => k))
  (at level 61, m at next level, right associativity).
Notation "m ;;; k" := (bind m (fun _ => k))
  (at level 61, right associativity).

(** [if cond: raise e] *)
Definition raise_if (cond : bool) (e : Exception) : result unit :=
  if cond then Raise e else Return tt.

Definition raised {A : Type} (m : result A) : Prop := exists e, m = Raise e.

(** ** Strings *)

Module str.

(** The decimal digit [d] (below ten) as a character. *)
Definition digit (d : N) : ascii := ascii_of_N (48 + d).

Fixpoint digits_fuel (fuel : nat) (n : N) (acc : string) : string :=
  match fuel with
  | O => acc
  | S fuel' =>
      let acc' := String (digit (n mod 10)) acc in
      if (n <? 10)%N then acc' else digits_fuel fuel' (n / 10)%N acc'
  end.

(** [str(n)] for a non-negative integer: its decimal digits, most
    significant first, ["0"] for zero. *)
Definition of_N (n : N) : string :=
  digits_fuel (S (N.to_nat (N.log2 n))) n "".

Fixpoint repeat (c : ascii) (n : nat) : string :=
  match n with
  | O => ""
  | S n' => String c (repeat c n')
  end.

(** [format(s, str(width))]: left-justified, padded with spaces up to
    [width]; a longer string is returned whole. *)
Definition ljust (width : nat) (s : string) : string :=
  s ++ repeat " "%char (width - String.length s).

(** Zero padding on the left up to [width] (the [0] flag of a numeric
    format without a sign). *)
Definition zfill (width : nat) (s : string) : string :=
  repeat "0"%char (width - String.length s) ++ s.

(** Right-justified, padded with spaces on the left up to [width]. *)
Definition rjust (width : nat) (s : string) : string :=
  repeat " "%char (width - String.length s) ++ s.

End str.

(** ** The [decimal] module, under its default context *)

Module decimal.

Definition prec : Z := 28.
Definition Emax : Z := 999999.
Definition Emin : Z := -999999.
Definition Etiny : Z := Emin - prec + 1.
Definition Etop : Z := Emax - prec + 1.

(** [Decimal(n)] for an integer [n]. *)
Definition of_int (n : Z) : Decimal := Finite (n <? 0) (Z.abs_N n) 0.

Definition is_finite (d : Decimal) : bool :=
  match d with
  | Finite _ _ _ => true
  | _ => false
  end.

(** [not d]: a decimal is false when it is a zero. *)
Definition is_zero (d : Decimal) : bool :=
  match d with
  | Finite _ c _ => (c =? 0)%N
  | _ => false
  end.

(** [len(self._int)], the number of digits of the coefficient. *)
Definition ndigits (c : N) : Z := Z.of_nat (String.length (str.of_N c)).

(** [self.adjusted()], the exponent of the most significant digit. *)
Definition adjusted (c : N) (e : Z) : Z := e + ndigits c - 1.

(** [d <= 0].  An ordering comparison that involves a NaN signals
    InvalidOperation. *)
Definition le_0 (d : Decimal) : result bool :=
  match d with
  | Finite s c _ => Return (s || (c =? 0)%N)
  | Infinity s => Return s
  | NaN _ _ => Raise InvalidOperation
  end.

(** The coefficient [c] without its last [k] digits, rounded to nearest,
    a 5 followed by zeros going to the even neighbour (ROUND_HALF_EVEN). *)
Definition round_half_even (c k : N) : N :=
  let q := (c / 10 ^ k)%N in
  let r := (c mod 10 ^ k)%N in
  match (2 * r ?= 10 ^ k)%N with
  | Lt => q
  | Eq => if N.even q then q else (q + 1)%N
  | Gt => (q + 1)%N
  end.

(** [self._rescale(exp, ROUND_HALF_EVEN)]: the same value at exponent
    [exp], padded with zeros or rounded. *)
Definition _rescale (self : Decimal) (exp : Z) : Decimal :=
  match self with
  | Finite s c e =>
      if (c =? 0)%N then Finite s 0 exp
      else if exp <=? e then Finite s (c * 10 ^ Z.to_N (e - exp)) exp
      else
        let digits := ndigits c + e - exp in
        if digits <? 0 then Finite s 0 exp
        else Finite s (round_half_even c (Z.to_N (exp - e))) exp
  | _ => self
  end.

(** [self._fix(context)]: round to the precision of the context and keep
    the exponent within its bounds. *)
Definition _fix (self : Decimal) : result Decimal :=
  match self with
  | Finite s c e =>
      if (c =? 0)%N then Return (Finite s 0 (Z.min (Z.max e Etiny) Emax))
      else
        let exp_min := ndigits c + e - prec in
        if Etop <? exp_min then Raise Overflow
        else
          let exp_min := if exp_min <? Etiny then Etiny else exp_min in
          if e <? exp_min then
            let digits := ndigits c + e - exp_min in
            let coeff := if digits <? 0 then 0%N
                         else round_half_even c (Z.to_N (exp_min - e)) in
            let carry := prec <? ndigits coeff in
            let coeff := if carry then (coeff / 10)%N else coeff in
            let exp_min := if carry then exp_min + 1 else exp_min in
            if Etop <? exp_min then Raise Overflow
            else Return (Finite s coeff exp_min)
          else Return self
  | _ => Return self
  end.

(** [self.quantize(exp, rounding=ROUND_HALF_EVEN)] *)
Definition quantize (self exp : Decimal) : result Decimal :=
  match self, exp with
  | NaN _ true, _ => Raise InvalidOperation
  | _, NaN _ true => Raise InvalidOperation
  | NaN _ false, _ => Return self
  | _, NaN _ false => Return exp
  | Infinity _, Infinity _ => Return self
  | Infinity _, _ => Raise InvalidOperation
  | _, Infinity _ => Raise InvalidOperation
  | Finite s c e, Finite _ _ exp_exp =>
      if negb ((Etiny <=? exp_exp) && (exp_exp <=? Emax)) then Raise InvalidOperation
      else if (c =? 0)%N then _fix (Finite s 0 exp_exp)
      else if Emax <? adjusted c e then Raise InvalidOperation
      else if prec <? adjusted c e - exp_exp + 1 then Raise InvalidOperation
      else
        match _rescale self exp_exp with
        | Finite _ c' e' as ans =>
            if Emax <? adjusted c' e' then Raise InvalidOperation
            else if prec <? ndigits c' then Raise InvalidOperation
            else _fix ans
        | ans => Return ans
        end
  end.

(** [self * other] *)
Definition mul (self other : Decimal) : result Decimal :=
  match self, other with
  | NaN _ true, _ => Raise InvalidOperation
  | _, NaN _ true => Raise InvalidOperation
  | NaN _ false, _ => Return self
  | _, NaN _ false => Return other
  | Infinity s1, Infinity s2 => Return (Infinity (xorb s1 s2))
  | Infinity s1, Finite s2 c2 _ =>
      if (c2 =? 0)%N then Raise InvalidOperation else Return (Infinity (xorb s1 s2))
  | Finite s1 c1 _, Infinity s2 =>
      if (c1 =? 0)%N then Raise InvalidOperation else Return (Infinity (xorb s1 s2))
  | Finite s1 c1 e1, Finite s2 c2 e2 =>
      _fix (Finite (xorb s1 s2) (c1 * c2) (e1 + e2))
  end.

(** [format(self, '08.0f')]: rounded to an integer with the rounding of the
    context and written without a decimal point, the digits padded with
    zeros after the sign up to eight characters; a special value is written
    by name, right-justified with spaces. *)
Definition format_08_0f (self : Decimal) : string :=
  let sign s := if s : bool then "-" else "" in
  match _rescale self 0 with
  | Finite s c _ => sign s ++ str.zfill (8 - String.length (sign s)) (str.of_N c)
  | Infinity s => str.rjust 8 (sign s ++ "Infinity")
  | NaN s false => str.rjust 8 (sign s ++ "NaN")
  | NaN s true => str.rjust 8 (sign s ++ "sNaN")
  end.

End decimal.

(** ** [datetime.date] *)

Module datetime.

Record date : Set := { year : N; month : N; day : N }.

Definition is_leap (y : N) : bool :=
  ((y mod 4 =? 0) && (negb (y mod 100 =? 0) || (y mod 400 =? 0)))%N.

Definition days_in_month (y m : N) : N :=
  if (m =? 2)%N then (if is_leap y then 29 else 28)%N
  else if ((m =? 4) || (m =? 6) || (m =? 9) || (m =? 11))%N then 30%N
  else 31%N.

(** The dates the [date] constructor accepts: MINYEAR = 1, MAXYEAR = 9999. *)
Definition valid (d : date) : bool :=
  ((1 <=? year d) && (year d <=? 9999) &&
   (1 <=? month d) && (month d <=? 12) &&
   (1 <=? day d) && (day d <=? days_in_month (year d) (month d)))%N.

(** [d.strftime('%y%m%d')]: the year without its century, the month and
    the day of the month, each as a zero-padded decimal number. *)
Definition strftime_y_m_d (d : date) : string :=
  str.zfill 2 (str.of_N (year d mod 100)) ++
  str.zfill 2 (str.of_N (month d)) ++
  str.zfill 2 (str.of_N (day d)).

End datetime.

Import datetime(date).

(** ** [cash.Currency] *)

Module Currency_.

(** Modelled from the spec: the name of a member of the [Currency]
    enumeration (the spec's currency code). *)
Definition name (c : Currency) : string :=
  match c with
  | USD => "USD" | EUR => "EUR" | GBP => "GBP" | JPY => "JPY"
  | CAD => "CAD" | CHF => "CHF" | AUD => "AUD" | NZD => "NZD"
  end.

(** [a == b] on members of an enumeration is identity. *)
Definition eqb (a b : Currency) : bool :=
  match a, b with
  | USD, USD | EUR, EUR | GBP, GBP | JPY, JPY
  | CAD, CAD | CHF, CHF | AUD, AUD | NZD, NZD => true
  | _, _ => false
  end.

End Currency_.

(** [a == b] on values that are a currency or [None]. *)
Definition currency_eqb (a b : option Currency) : bool :=
  match a, b with
  | Some x, Some y => Currency_.eqb x y
  | None, None => true
  | _, _ => false
  end.

(** ** [re.match] for the patterns of the source *)

Module re.

Definition is_digit (c : ascii) : bool := (("0" <=? c) && (c <=? "9"))%char.
Definition is_upper (c : ascii) : bool := (("A" <=? c) && (c <=? "Z"))%char.

(** A pattern [^ cls1{n1} cls2{n2} ... $]: a sequence of character classes,
    each repeated a fixed number of times, anchored at both ends. *)
Definition pattern : Type := list ((ascii -> bool) * nat).

(** Consumes [n] characters of the class, and gives the rest. *)
Fixpoint take_class (cls : ascii -> bool) (n : nat) (s : string) : option string :=
  match n with
  | O => Some s
  | S n' =>
      match s with
      | String c rest => if cls c then take_class cls n' rest else None
      | EmptyString => None
      end
  end.

Fixpoint take_pattern (p : pattern) (s : string) : option string :=
  match p with
  | [] => Some s
  | (cls, n) :: p' =>
      match take_class cls n s with
      | Some rest => take_pattern p' rest
      | None => None
      end
  end.

(** [$] matches at the end of the string, and also just before a newline
    that ends the string. *)
Definition at_end (s : string) : bool :=
  ((s =? "") || (s =? String "010"%char ""))%string.

(** [re.match(p, s) is not None] *)
Definition matches (p : pattern) (s : string) : bool :=
  match take_pattern p s with
  | Some rest => at_end rest
  | None => false
  end.

End re.

(** ** The instruments *)

Inductive OptionType : Set := PUT | CALL.

(** [optionType.value] *)
Definition OptionType_value (t : OptionType) : string :=
  match t with
  | PUT => "P"
  | CALL => "C"
  end.

(** An instance: its class and its attributes.  [symbol] and [currency] are
    the two fields of the dataclass [Instrument]; [currency] is whatever the
    caller passed, a currency or [None]. *)
Inductive Instrument : Set :=
| Stock (symbol : string) (currency : option Currency)
| Bond (symbol : string) (currency : option Currency)
| Option (symbol : string) (currency : option Currency)
    (_underlying : string) (_optionType : OptionType) (_expiration : date)
    (_strike _multiplier : Decimal)
| FutureOption (symbol : string) (currency : option Currency)
    (_underlying : string) (_optionType : OptionType) (_expiration : date)
    (_strike _multiplier : Decimal)
| Future (symbol : string) (currency : option Currency)
    (_multiplier : Decimal) (_expiration : date)
| Forex (symbol : string) (currency : option Currency)
    (_baseCurrency : Currency).

(** [type(self)] *)
Inductive Class : Set :=
| cls_Stock | cls_Bond | cls_Option | cls_FutureOption | cls_Future | cls_Forex.

Definition Class_eqb (a b : Class) : bool :=
  match a, b with
  | cls_Stock, cls_Stock | cls_Bond, cls_Bond | cls_Option, cls_Option
  | cls_FutureOption, cls_FutureOption | cls_Future, cls_Future
  | cls_Forex, cls_Forex => true
  | _, _ => false
  end.

Definition __class__ (self : Instrument) : Class :=
  match self with
  | Stock _ _ => cls_Stock
  | Bond _ _ => cls_Bond
  | Option _ _ _ _ _ _ _ => cls_Option
  | FutureOption _ _ _ _ _ _ _ => cls_FutureOption
  | Future _ _ _ _ => cls_Future
  | Forex _ _ _ => cls_Forex
  end.

(** [not d.is_finite() or d <= 0]; [or] evaluates its right operand only
    when the left one is false. *)
Definition not_finite_or_le_0 (d : Decimal) : result bool :=
  if negb (decimal.is_finite d) then Return true else decimal.le_0 d.

Module Instrument.

Definition multiplierQuantization : Decimal := Finite false 1 (-1).   (* Decimal('0.1') *)

Definition quantizeMultiplier (multiplier : Decimal) : result Decimal :=
  decimal.quantize multiplier multiplierQuantization.

Definition symbol (self : Instrument) : string :=
  match self with
  | Stock s _ | Bond s _ | Option s _ _ _ _ _ _
  | FutureOption s _ _ _ _ _ _ | Future s _ _ _ | Forex s _ _ => s
  end.

Definition currency (self : Instrument) : option Currency :=
  match self with
  | Stock _ c | Bond _ c | Option _ c _ _ _ _ _
  | FutureOption _ c _ _ _ _ _ | Future _ c _ _ | Forex _ c _ => c
  end.

Definition __post_init__ (symbol : string) (currency : option Currency) : result unit :=
  raise_if (symbol =? "")%string (Value_Error EmptySymbol) ;;;
  raise_if (match currency with None => true | Some _ => false end)
           (Value_Error MissingCurrency).

(** The [__init__] that [dataclass] generates for [Instrument], as the
    subclasses with an [__init__] of their own call it: [self] is the
    instance under construction, which has its class and the attributes set
    so far, and receives the two fields before [__post_init__] runs. *)
Definition __init__ (self : string -> option Currency -> Instrument)
    (symbol : string) (currency : option Currency) : result Instrument :=
  __post_init__ symbol currency ;;;
  Return (self symbol currency).

(** The property [multiplier], with the overrides of [Option] and [Future]. *)
Definition multiplier (self : Instrument) : Decimal :=
  match self with
  | Option _ _ _ _ _ _ m | FutureOption _ _ _ _ _ _ m | Future _ _ m _ => m
  | Stock _ _ | Bond _ _ | Forex _ _ _ => decimal.of_int 1
  end.

Definition __lt__ (self other : Instrument) : bool :=
  (symbol self <? symbol other)%string.

Definition __str__ (self : Instrument) : string := symbol self.

(** The [__eq__] that [dataclass] generates, and that the classes that are
    not dataclasses inherit: [None] stands for [NotImplemented]. *)
Definition __eq__ (self other : Instrument) : option bool :=
  if Class_eqb (__class__ other) (__class__ self)
  then Some ((symbol self =? symbol other)%string
             && currency_eqb (currency self) (currency other))
  else None.

(** [self == other]: when [__eq__] is not implemented either way, two
    distinct objects are unequal. *)
Definition eq (self other : Instrument) : bool :=
  match __eq__ self other with
  | Some b => b
  | None =>
      match __eq__ other self with
      | Some b => b
      | None => false
      end
  end.

(** [self != other] *)
Definition ne (self other : Instrument) : bool := negb (eq self other).

(** The tuple whose hash the generated [__hash__] returns. *)
Definition hash_key (self : Instrument) : string * option Currency :=
  (symbol self, currency self).

(** The comparisons that [total_ordering] derives from [__lt__]. *)
Definition __gt__ (self other : Instrument) : bool :=
  negb (__lt__ self other) && ne self other.

Definition __le__ (self other : Instrument) : bool :=
  __lt__ self other || eq self other.

Definition __ge__ (self other : Instrument) : bool :=
  negb (__lt__ self other).

End Instrument.

Module Stock.

(** The [__init__] that [dataclass] generates for [Stock]. *)
Definition __init__ (symbol : string) (currency : option Currency) : result Instrument :=
  Instrument.__post_init__ symbol currency ;;;
  Return (Stock symbol currency).

End Stock.

Module Bond.

(** [r'^[0-9]{3}[0-9A-Z]{5}[0-9]$'] *)
Definition regexCUSIP : re.pattern :=
  [ (re.is_digit, 3%nat);
    ((fun c => re.is_digit c || re.is_upper c), 5%nat);
    (re.is_digit, 1%nat) ].

Definition validBondSymbol (symbol : string) : bool :=
  re.matches regexCUSIP symbol.

Definition __post_init__ (symbol : string) (currency : option Currency)
    (validateSymbol : bool) : result unit :=
  raise_if (validateSymbol && negb (validBondSymbol symbol))
           (Value_Error (InvalidCUSIP symbol)) ;;;
  Instrument.__post_init__ symbol currency.

(** The [__init__] that [dataclass] generates for [Bond]; [validateSymbol]
    is an init-only variable and defaults to [True]. *)
Definition __init__ (symbol : string) (currency : option Currency)
    (validateSymbol : bool) : result Instrument :=
  __post_init__ symbol currency validateSymbol ;;;
  Return (Bond symbol currency).

End Bond.

Module Option.

Definition strikeQuantization : Decimal := Finite false 1 (-3).   (* Decimal('0.001') *)

Definition quantizeStrike (strike : Decimal) : result Decimal :=
  decimal.quantize strike strikeQuantization.

(** The default of the parameter [multiplier]: [Decimal(100)]. *)
Definition multiplier_default : Decimal := decimal.of_int 100.

(** [self] is the instance under construction: an [Option], or a
    [FutureOption] when [FutureOption.__init__] calls this one. *)
Definition __init__
    (self : string -> option Currency -> string -> OptionType -> date ->
            Decimal -> Decimal -> Instrument)
    (underlying : string) (currency : option Currency) (optionType : OptionType)
    (expiration : date) (strike : Decimal) (multiplier : Decimal)
    (symbol : option string) : result Instrument :=
  raise_if (underlying =? "")%string (Value_Error EmptyUnderlying) ;;;
  bad_strike <- not_finite_or_le_0 strike ;;
  raise_if bad_strike (Value_Error (NonPositiveStrike strike)) ;;;
  bad_multiplier <- not_finite_or_le_0 multiplier ;;
  raise_if bad_multiplier (Value_Error (NonPositiveMultiplier multiplier)) ;;;
  _strike <- quantizeStrike strike ;;
  _multiplier <- Instrument.quantizeMultiplier multiplier ;;
  symbol <- match symbol with
            | Some symbol => Return symbol
            | None =>
                strike_1000 <- decimal.mul strike (decimal.of_int 1000) ;;
                Return (str.ljust 6 underlying ++
                        datetime.strftime_y_m_d expiration ++
                        OptionType_value optionType ++
                        decimal.format_08_0f strike_1000)
            end ;;
  Instrument.__init__
    (fun symbol currency =>
       self symbol currency underlying optionType expiration _strike _multiplier)
    symbol currency.

Definition underlying (self : Instrument) : option string :=
  match self with
  | Option _ _ u _ _ _ _ | FutureOption _ _ u _ _ _ _ => Some u
  | _ => None
  end.

Definition optionType (self : Instrument) : option OptionType :=
  match self with
  | Option _ _ _ t _ _ _ | FutureOption _ _ _ t _ _ _ => Some t
  | _ => None
  end.

Definition expiration (self : Instrument) : option date :=
  match self with
  | Option _ _ _ _ d _ _ | FutureOption _ _ _ _ d _ _ => Some d
  | _ => None
  end.

Definition strike (self : Instrument) : option Decimal :=
  match self with
  | Option _ _ _ _ _ k _ | FutureOption _ _ _ _ _ k _ => Some k
  | _ => None
  end.

End Option.

Module FutureOption.

Definition __init__ (symbol : string) (underlying : string)
    (currency : option Currency) (optionType : OptionType) (expiration : date)
    (strike : Decimal) (multiplier : Decimal) : result Instrument :=
  Option.__init__ FutureOption underlying currency optionType expiration
                  strike multiplier (Some symbol).

End FutureOption.

Module Future.

Definition __init__ (symbol : string) (currency : option Currency)
    (multiplier : Decimal) (expiration : date) : result Instrument :=
  bad_multiplier <- not_finite_or_le_0 multiplier ;;
  raise_if bad_multiplier (Value_Error (NonPositiveMultiplier multiplier)) ;;;
  _multiplier <- Instrument.quantizeMultiplier multiplier ;;
  Instrument.__init__
    (fun symbol currency => Future symbol currency _multiplier expiration)
    symbol currency.

End Future.

Module Forex.

Definition __init__ (baseCurrency quoteCurrency : Currency) : result Instrument :=
  raise_if (Currency_.eqb baseCurrency quoteCurrency)
           (Value_Error (IdenticalForexCurrencies baseCurrency quoteCurrency)) ;;;
  let symbol := Currency_.name baseCurrency ++ Currency_.name quoteCurrency in
  Instrument.__init__
    (fun symbol currency => Forex symbol currency baseCurrency)
    symbol (Some quoteCurrency).

Definition quoteCurrency (self : Instrument) : option Currency :=
  Instrument.currency self.

Definition baseCurrency (self : Instrument) : option Currency :=
  match self with
  | Forex _ _ b => Some b
  | _ => None
  end.

End Forex.

(** ** The comparison operators

    [a < b] calls [a.__lt__(b)], except when the class of [b] is a proper
    subclass of the class of [a]: then the reflected method of [b],
    [b.__gt__(a)], is tried first.  No comparison method of an instrument
    returns NotImplemented for another instrument, so the first call
    decides.  Of the six classes only [FutureOption] derives from another
    one, [Option]. *)

Module operator.

(** [sub] is a subclass of [sup] and is not [sup]. *)
Definition proper_subclass (sub sup : Class) : bool :=
  match sub, sup with
  | cls_FutureOption, cls_Option => true
  | _, _ => false
  end.

(** [a < b] *)
Definition lt (a b : Instrument) : bool :=
  if proper_subclass (__class__ b) (__class__ a)
  then Instrument.__gt__ b a else Instrument.__lt__ a b.

(** [a <= b] *)
Definition le (a b : Instrument) : bool :=
  if proper_subclass (__class__ b) (__class__ a)
  then Instrument.__ge__ b a else Instrument.__le__ a b.

(** [a > b] *)
Definition gt (a b : Instrument) : bool :=
  if proper_subclass (__class__ b) (__class__ a)
  then Instrument.__lt__ b a else Instrument.__gt__ a b.

(** [a >= b] *)
Definition ge (a b : Instrument) : bool :=
  if proper_subclass (__class__ b) (__class__ a)
  then Instrument.__le__ b a else Instrument.__ge__ a b.

End operator.

(** ** The value of a decimal, for stating the properties *)

(** [c * 10^e], the magnitude of the finite decimal with coefficient [c]
    and exponent [e], as a rational number. *)
Definition magnitude (c : N) (e : Z) : Q := (inject_Z (Z.of_N c) * 10 ^ e)%Q.

(** [n * 10^e] is [x] rounded half to even at the step [10^e]: no multiple
    of the step is nearer to [x], and when [x] is half way between two
    multiples, [n] is the even one. *)
Definition rounds_half_even (x : Q) (e : Z) (n : N) : Prop :=
  (Qabs (x - magnitude n e) <= (1 # 2) * 10 ^ e)%Q
  /\ ((Qabs (x - magnitude n e) == (1 # 2) * 10 ^ e)%Q -> N.even n = true).

(** The coefficient that [_rescale] gives, in closed form. *)
Definition rescaled (c : N) (e exp : Z) : N :=
  if exp <=? e then (c * 10 ^ Z.to_N (e - exp))%N
  else decimal.round_half_even c (Z.to_N (exp - e)).

(** [d] is finite and greater than zero. *)
Definition positive_finite (d : Decimal) : bool :=
  match d with
  | Finite false c _ => negb (c =? 0)%N
  | _ => false
  end.

(** The lexicographic order of strings, in the words of the spec: a proper
    prefix comes first, and otherwise the first characters that differ
    decide, by their codes (so upper case comes before lower case). *)
Inductive lex_lt : string -> string -> Prop :=
| lex_lt_prefix (c : ascii) (t : string) : lex_lt "" (String c t)
| lex_lt_head (c d : ascii) (s t : string) :
    (N_of_ascii c < N_of_ascii d)%N -> lex_lt (String c s) (String d t)
| lex_lt_tail (c : ascii) (s t : string) :
    lex_lt s t -> lex_lt (String c s) (String c t).

(** Nine characters: three digits, five digits or upper-case letters, and
    a digit. *)
Definition cusip_shape (s : string) : Prop :=
  exists c1 c2 c3 c4 c5 c6 c7 c8 c9 : ascii,
    s = String c1 (String c2 (String c3 (String c4 (String c5
          (String c6 (String c7 (String c8 (String c9 ""))))))))
    /\ re.is_digit c1 = true /\ re.is_digit c2 = true /\ re.is_digit c3 = true
    /\ (re.is_digit c4 || re.is_upper c4) = true
    /\ (re.is_digit c5 || re.is_upper c5) = true
    /\ (re.is_digit c6 || re.is_upper c6) = true
    /\ (re.is_digit c7 || re.is_upper c7) = true
    /\ (re.is_digit c8 || re.is_upper c8) = true
    /\ re.is_digit c9 = true.

(** The instances that the constructors return. *)
Inductive constructed : Instrument -> Prop :=
| constructed_Stock (symbol : string) (currency : option Currency) (o : Instrument) :
    Stock.__init__ symbol currency = Return o -> constructed o
| constructed_Bond (symbol : string) (currency : option Currency)
    (validateSymbol : bool) (o : Instrument) :
    Bond.__init__ symbol currency validateSymbol = Return o -> constructed o
| constructed_Option (underlying : string) (currency : option Currency)
    (optionType : OptionType) (expiration : date) (strike multiplier : Decimal)
    (symbol : option string) (o : Instrument) :
    Option.__init__ Option underlying currency optionType expiration
                    strike multiplier symbol = Return o ->
    constructed o
| constructed_FutureOption (symbol underlying : string) (currency : option Currency)
    (optionType : OptionType) (expiration : date) (strike multiplier : Decimal)
    (o : Instrument) :
    FutureOption.__init__ symbol underlying currency optionType expiration
                          strike multiplier = Return o ->
    constructed o
| constructed_Future (symbol : string) (currency : option Currency)
    (multiplier : Decimal) (expiration : date) (o : Instrument) :
    Future.__init__ symbol currency multiplier expiration = Return o ->
    constructed o
| constructed_Forex (baseCurrency quoteCurrency : Currency) (o : Instrument) :
    Forex.__init__ baseCurrency quoteCurrency = Return o -> constructed o.

(** A decimal that is finite, not negative, and has [places] decimals and
    at most 28 digits. *)
Definition quantized (places : Z) (d : Decimal) : Prop :=
  exists n : N, d = Finite false n (- places) /\ (n < 10 ^ 28)%N.

(** The underlying, the strike and the multiplier of an option pass the
    validations, and the strike or the multiplier cannot be quantized. *)
Definition option_decimals_too_large (u : string) (strike mult : Decimal) : Prop :=
  u <> "" /\ positive_finite strike = true /\ positive_finite mult = true
  /\ (Option.quantizeStrike strike = Raise InvalidOperation
      \/ Instrument.quantizeMultiplier mult = Raise InvalidOperation).

(** The multiplier of a future passes the validation and cannot be
    quantized. *)
Definition future_multiplier_too_large (mult : Decimal) : Prop :=
  positive_finite mult = true
  /\ Instrument.quantizeMultiplier mult = Raise InvalidOperation.

(** The construction fails: with InvalidOperation when [too_large] holds,
    and with a [ValueError] when it does not. *)
Definition fails_with (too_large : Prop) (m : result Instrument) : Prop :=
  (too_large -> m = Raise InvalidOperation)
  /\ (~ too_large -> exists v, m = Raise (Value_Error v)).

(** The comparisons between two instruments: [==], the four operators, and
    the four methods behind them. *)
Definition comparisons : list (Instrument -> Instrument -> bool) :=
  [ Instrument.eq; Instrument.ne;
    operator.lt; operator.le; operator.gt; operator.ge;
    Instrument.__lt__; Instrument.__le__; Instrument.__gt__; Instrument.__ge__ ].

(** The construction stops with a [ValueError]. *)
Definition validation_error {A : Type} (m : result A) : Prop :=
  exists v, m = Raise (Value_Error v).

(** The expiration date of the examples of the spec, 2021-01-15. *)
Definition date_2021_01_15 : date :=
  {| datetime.year := 2021; datetime.month := 1; datetime.day := 15 |}.

(** Three instruments with the symbol ESZ1: two options that differ in the
    type, the strike and the multiplier, and a future option. *)
Definition ESZ1_call : Instrument :=
  Option "ESZ1" (Some USD) "ES" CALL date_2021_01_15
         (Finite false 4500000 (-3)) (Finite false 500 (-1)).
Definition ESZ1_put : Instrument :=
  Option "ESZ1" (Some USD) "ES" PUT date_2021_01_15
         (Finite false 4400000 (-3)) (Finite false 1000 (-1)).
Definition ESZ1_future_call : Instrument :=
  FutureOption "ESZ1" (Some USD) "ES" CALL date_2021_01_15
               (Finite false 4500000 (-3)) (Finite false 500 (-1)).

Ltac context_constants :=
  unfold decimal.Etiny, decimal.Etop, decimal.Emin, decimal.Emax, decimal.prec in *.

(** * Properties *)

(** ** Strings and digits *)

Lemma length_append (s t : string) :
  String.length (s ++ t) = (String.length s + String.length t)%nat.
Proof. induction s as [|c s IH]; simpl; [reflexivity | now rewrite IH]. Qed.

Lemma length_repeat (c : ascii) (n : nat) : String.length (str.repeat c n) = n.
Proof. induction n as [|n IH]; simpl; [reflexivity | now rewrite IH]. Qed.

Lemma length_ljust (width : nat) (s : string) :
  String.length (str.ljust width s) = Nat.max width (String.length s).
Proof. unfold str.ljust. rewrite length_append, length_repeat. lia. Qed.

Lemma length_zfill (width : nat) (s : string) :
  String.length (str.zfill width s) = Nat.max width (String.length s).
Proof. unfold str.zfill. rewrite length_append, length_repeat. lia. Qed.


(** With enough fuel the digits of a positive [n] are as many as the
    powers of ten up to [n]. *)
Lemma digits_fuel_length (fuel : nat) :
  forall (n : N) (acc : string),
    (1 <= n)%N -> (n < 2 ^ N.of_nat fuel)%N ->
    exists k : nat,
      String.length (str.digits_fuel fuel n acc) = (S k + String.length acc)%nat
      /\ (10 ^ N.of_nat k <= n)%N /\ (n < 10 ^ N.of_nat (S k))%N.
Proof.
  induction fuel as [|fuel IH]; intros n acc Hpos Hlt.
  - simpl in Hlt. lia.
  - cbn [str.digits_fuel]. destruct (N.ltb_spec n 10) as [Hsmall|Hbig].
    + exists 0%nat. simpl. split; [reflexivity|]. split; lia.
    + assert (Hdiv : (n = 10 * (n / 10) + n mod 10)%N) by (apply N.div_mod; lia).
      assert (Hmod : (n mod 10 < 10)%N) by (apply N.mod_lt; lia).
      destruct (IH (n / 10)%N (String (str.digit (n mod 10)) acc)) as (k & Hlen & Hlo & Hhi).
      * clear IH. set (q := (n / 10)%N) in *. set (r := (n mod 10)%N) in *.
        clearbody q r. lia.
      * clear IH. rewrite Nat2N.inj_succ, N.pow_succ_r' in Hlt.
        set (q := (n / 10)%N) in *. set (r := (n mod 10)%N) in *.
        clearbody q r. lia.
      * exists (S k). split; [rewrite Hlen; simpl; lia|].
        clear IH Hlen. rewrite !Nat2N.inj_succ, !N.pow_succ_r' in *.
        set (q := (n / 10)%N) in *. set (r := (n mod 10)%N) in *.
        clearbody q r. split; lia.
Qed.

Lemma of_N_length (n : N) :
  (1 <= n)%N ->
  exists k : nat,
    String.length (str.of_N n) = S k
    /\ (10 ^ N.of_nat k <= n)%N /\ (n < 10 ^ N.of_nat (S k))%N.
Proof.
  intros Hpos. unfold str.of_N.
  destruct (digits_fuel_length (S (N.to_nat (N.log2 n))) n "" Hpos) as (k & Hlen & Hb).
  - rewrite Nat2N.inj_succ, N2Nat.id.
    apply N.log2_spec. lia.
  - exists k. split; [rewrite Hlen; simpl; lia | exact Hb].
Qed.

Lemma ndigits_0 : decimal.ndigits 0 = 1.
Proof. reflexivity. Qed.

Lemma ndigits_pos (c : N) : 1 <= decimal.ndigits c.
Proof.
  destruct (N.eq_dec c 0) as [->|Hc]; [rewrite ndigits_0; lia|].
  unfold decimal.ndigits. destruct (of_N_length c) as (k & Hlen & _); lia.
Qed.

(** [ndigits c] is the number of decimal digits of [c]. *)
Lemma ndigits_spec (c : N) :
  (1 <= c)%N ->
  (10 ^ Z.to_N (decimal.ndigits c - 1) <= c < 10 ^ Z.to_N (decimal.ndigits c))%N.
Proof.
  intros Hpos. unfold decimal.ndigits.
  destruct (of_N_length c Hpos) as (k & Hlen & Hlo & Hhi).
  rewrite Hlen.
  replace (Z.to_N (Z.of_nat (S k) - 1)) with (N.of_nat k) by lia.
  replace (Z.to_N (Z.of_nat (S k))) with (N.of_nat (S k)) by lia.
  split; assumption.
Qed.

Lemma ndigits_unique (c : N) (k : Z) :
  1 <= k -> (10 ^ Z.to_N (k - 1) <= c < 10 ^ Z.to_N k)%N -> decimal.ndigits c = k.
Proof.
  intros Hk [Hlo Hhi].
  assert (Hc : (1 <= c)%N).
  { assert (0 < 10 ^ Z.to_N (k - 1))%N by (apply N.neq_0_lt_0, N.pow_nonzero; lia). lia. }
  pose proof (ndigits_pos c) as Hd.
  destruct (ndigits_spec c Hc) as [Hlo' Hhi'].
  destruct (Z.lt_trichotomy (decimal.ndigits c) k) as [Hlt | [Heq | Hgt]]; [|exact Heq|].
  - assert ((10 ^ Z.to_N (decimal.ndigits c) <= 10 ^ Z.to_N (k - 1))%N)
      by (apply N.pow_le_mono_r; lia).
    lia.
  - assert ((10 ^ Z.to_N k <= 10 ^ Z.to_N (decimal.ndigits c - 1))%N)
      by (apply N.pow_le_mono_r; lia).
    lia.
Qed.

(** A bound on the number of digits is a bound on the number. *)
Lemma ndigits_le_iff (c : N) (k : Z) :
  1 <= k -> (decimal.ndigits c <= k <-> (c < 10 ^ Z.to_N k)%N).
Proof.
  intros Hk. destruct (N.eq_dec c 0) as [->|Hc].
  - rewrite ndigits_0. split; intros _; [|lia].
    apply N.neq_0_lt_0, N.pow_nonzero; lia.
  - destruct (ndigits_spec c) as [Hlo Hhi]; [lia|].
    pose proof (ndigits_pos c) as Hd. split; intros H.
    + assert ((10 ^ Z.to_N (decimal.ndigits c) <= 10 ^ Z.to_N k)%N)
        by (apply N.pow_le_mono_r; lia).
      lia.
    + destruct (Z.le_gt_cases (decimal.ndigits c) k) as [|Hgt]; [assumption|].
      assert ((10 ^ Z.to_N k <= 10 ^ Z.to_N (decimal.ndigits c - 1))%N)
        by (apply N.pow_le_mono_r; lia).
      lia.
Qed.

Lemma ndigits_mul_pow10 (c : N) (j : N) :
  (1 <= c)%N -> decimal.ndigits (c * 10 ^ j) = decimal.ndigits c + Z.of_N j.
Proof.
  intros Hc. destruct (ndigits_spec c Hc) as [Hlo Hhi].
  pose proof (ndigits_pos c) as Hd.
  assert (Hj : (0 < 10 ^ j)%N) by (apply N.neq_0_lt_0, N.pow_nonzero; lia).
  apply ndigits_unique; [lia|].
  replace (Z.to_N (decimal.ndigits c + Z.of_N j - 1))
    with (Z.to_N (decimal.ndigits c - 1) + j)%N by lia.
  replace (Z.to_N (decimal.ndigits c + Z.of_N j))
    with (Z.to_N (decimal.ndigits c) + j)%N by lia.
  rewrite !N.pow_add_r. split.
  - apply N.mul_le_mono_r. exact Hlo.
  - apply N.mul_lt_mono_pos_r; assumption.
Qed.

(** ** Rounding *)

Lemma pow10_pos (k : N) : (0 < 10 ^ k)%N.
Proof. apply N.neq_0_lt_0, N.pow_nonzero. lia. Qed.

(** [round_half_even c k] is within half a unit of [c / 10^k], and even
    when [c] is half way. *)
Lemma round_half_even_near (c k : N) :
  let n := decimal.round_half_even c k in
  (2 * c <= 2 * (n * 10 ^ k) + 10 ^ k
   /\ 2 * (n * 10 ^ k) <= 2 * c + 10 ^ k
   /\ (2 * c = 2 * (n * 10 ^ k) + 10 ^ k \/ 2 * (n * 10 ^ k) = 2 * c + 10 ^ k ->
       N.even n = true))%N.
Proof.
  unfold decimal.round_half_even.
  pose proof (pow10_pos k) as Hp.
  pose proof (N.div_mod c (10 ^ k)) as Hdiv.
  pose proof (N.mod_lt c (10 ^ k)) as Hmod.
  set (p := (10 ^ k)%N) in *. set (q := (c / p)%N) in *. set (r := (c mod p)%N) in *.
  assert (Hc : (c = p * q + r)%N) by (apply Hdiv; lia).
  assert (Hr : (r < p)%N) by (apply Hmod; lia).
  clearbody q r p. clear Hdiv Hmod. subst c.
  destruct (N.compare_spec (2 * r) p) as [Heq | Hlt | Hgt]; cbv zeta.
  - destruct (N.even q) eqn:Hev.
    + split; [lia | split; [lia | intros _; exact Hev]].
    + assert (Hev' : N.even (q + 1) = true).
      { rewrite N.add_1_r, N.even_succ. rewrite <- N.negb_even, Hev. reflexivity. }
      split; [lia | split; [lia | intros _; exact Hev']].
  - split; [lia | split; [lia | intros H; exfalso; lia]].
  - split; [lia | split; [lia | intros H; exfalso; lia]].
Qed.

Lemma round_half_even_small (c k : N) :
  (2 * c < 10 ^ k)%N -> decimal.round_half_even c k = 0%N.
Proof.
  intros H. unfold decimal.round_half_even.
  assert (Hlt : (c < 10 ^ k)%N) by lia.
  rewrite (N.div_small c _ Hlt), (N.mod_small c _ Hlt).
  destruct (N.compare_spec (2 * c) (10 ^ k)); lia || reflexivity.
Qed.

Lemma N_mul_compare_mono_r (p n m : N) :
  (0 < p)%N -> (n * p ?= m * p)%N = (n ?= m)%N.
Proof.
  intros Hp. destruct (N.compare_spec n m) as [->|H|H].
  - apply N.compare_refl.
  - apply N.compare_lt_iff, N.mul_lt_mono_pos_r; assumption.
  - apply N.compare_gt_iff, N.mul_lt_mono_pos_r; assumption.
Qed.

(** Trailing zeros that are dropped do not change the rounding. *)
Lemma round_half_even_shift (c k j : N) :
  decimal.round_half_even (c * 10 ^ j) (k + j) = decimal.round_half_even c k.
Proof.
  unfold decimal.round_half_even.
  pose proof (pow10_pos j) as Hj. pose proof (pow10_pos k) as Hk.
  rewrite N.pow_add_r.
  rewrite N.Div0.div_mul_cancel_r by lia.
  rewrite N.Div0.mul_mod_distr_r.
  rewrite N.mul_assoc, N_mul_compare_mono_r by lia.
  reflexivity.
Qed.

(** Dropping no more zeros than were appended is exact. *)
Lemma round_half_even_exact (c k j : N) :
  (k <= j)%N -> decimal.round_half_even (c * 10 ^ j) k = (c * 10 ^ (j - k))%N.
Proof.
  intros Hkj. unfold decimal.round_half_even.
  pose proof (pow10_pos k) as Hk.
  replace (c * 10 ^ j)%N with ((c * 10 ^ (j - k)) * 10 ^ k)%N.
  2:{ rewrite <- N.mul_assoc, <- N.pow_add_r. do 2 f_equal. lia. }
  rewrite N.div_mul by lia. rewrite N.Div0.mod_mul.
  destruct (N.compare_spec (2 * 0) (10 ^ k)); lia.
Qed.

Lemma round_half_even_ge (c k : N) :
  (c / 10 ^ k <= decimal.round_half_even c k)%N.
Proof.
  unfold decimal.round_half_even.
  destruct (2 * (c mod 10 ^ k) ?= 10 ^ k)%N; [destruct (N.even _)| |]; lia.
Qed.

Lemma rescale_finite (s : bool) (c : N) (e exp : Z) :
  decimal._rescale (Finite s c e) exp = Finite s (rescaled c e exp) exp.
Proof.
  unfold decimal._rescale, rescaled.
  destruct (N.eqb_spec c 0) as [->|Hc].
  - destruct (exp <=? e); [reflexivity|].
    rewrite round_half_even_small; [reflexivity|].
    pose proof (pow10_pos (Z.to_N (exp - e))). lia.
  - destruct (Z.leb_spec exp e) as [Hle|Hgt]; [reflexivity|].
    destruct (Z.ltb_spec (decimal.ndigits c + e - exp) 0) as [Hneg|Hnn]; [|reflexivity].
    rewrite round_half_even_small; [reflexivity|].
    pose proof (ndigits_pos c) as Hd.
    assert (Hlt : (c < 10 ^ Z.to_N (decimal.ndigits c))%N) by (apply ndigits_spec; lia).
    assert (Hmono : (10 ^ Z.to_N (decimal.ndigits c) <= 10 ^ (Z.to_N (exp - e) - 1))%N)
      by (apply N.pow_le_mono_r; lia).
    replace (Z.to_N (exp - e)) with (N.succ (Z.to_N (exp - e) - 1)) by lia.
    rewrite N.pow_succ_r'. lia.
Qed.

(** ** Values *)

Lemma Qpow10_pos (e : Z) : (0 < 10 ^ e)%Q.
Proof. apply Qpower_0_lt. reflexivity. Qed.

Lemma inject_pow10 (k : N) : (inject_Z (Z.of_N (10 ^ k)) == 10 ^ Z.of_N k)%Q.
Proof.
  rewrite N2Z.inj_pow. change (Z.of_N 10) with 10%Z.
  rewrite Zpower_Qpower by lia. reflexivity.
Qed.

Lemma magnitude_shift (c : N) (e : Z) (j : N) :
  (magnitude (c * 10 ^ j) e == magnitude c (e + Z.of_N j))%Q.
Proof.
  unfold magnitude.
  rewrite N2Z.inj_mul, inject_Z_mult, inject_pow10.
  rewrite Qpower_plus by discriminate. ring.
Qed.

(** The integer inequalities of [round_half_even_near] say that [n] at the
    exponent [e + k] is [c] at the exponent [e], rounded half to even. *)
Lemma rounds_half_even_intro (c n : N) (e : Z) (k : N) :
  (2 * c <= 2 * (n * 10 ^ k) + 10 ^ k)%N ->
  (2 * (n * 10 ^ k) <= 2 * c + 10 ^ k)%N ->
  ((2 * c = 2 * (n * 10 ^ k) + 10 ^ k \/ 2 * (n * 10 ^ k) = 2 * c + 10 ^ k)%N ->
   N.even n = true) ->
  rounds_half_even (magnitude c e) (e + Z.of_N k) n.
Proof.
  intros Hlo Hhi Htie. unfold rounds_half_even.
  pose proof (Qpow10_pos e) as Hp.
  set (D := (Z.of_N c - Z.of_N (n * 10 ^ k))%Z).
  assert (Hd : (magnitude c e - magnitude n (e + Z.of_N k) == inject_Z D * 10 ^ e)%Q).
  { rewrite <- magnitude_shift. unfold magnitude, D.
    unfold Z.sub. rewrite inject_Z_plus, inject_Z_opp. ring. }
  assert (Hh : ((1 # 2) * 10 ^ (e + Z.of_N k)
                == (1 # 2) * inject_Z (Z.of_N (10 ^ k)) * 10 ^ e)%Q).
  { rewrite inject_pow10, Qpower_plus by discriminate. ring. }
  rewrite Hd, Hh, Qabs_Qmult, (Qabs_pos (10 ^ e)) by (apply Qlt_le_weak; exact Hp).
  change (Qabs (inject_Z D)) with (inject_Z (Z.abs D)).
  assert (Hscale : forall a b : Z,
             ((inject_Z a <= (1 # 2) * inject_Z b)%Q <-> (2 * a <= b)%Z)
             /\ ((inject_Z a == (1 # 2) * inject_Z b)%Q <-> (2 * a = b)%Z)).
  { intros a b. unfold Qle, Qeq, Qmult, inject_Z. cbn [Qnum Qden]. split; lia. }
  split.
  - apply Qmult_le_compat_r; [|apply Qlt_le_weak; exact Hp].
    apply Hscale. unfold D. rewrite !N2Z.inj_mul in *. lia.
  - intros Heq. apply Qmult_inj_r in Heq.
    2:{ intros H0. rewrite H0 in Hp. discriminate. }
    apply Hscale in Heq. apply Htie. unfold D in Heq. lia.
Qed.

(** [_rescale] rounds the value half to even at the new exponent. *)
Lemma rescaled_rounds (c : N) (e exp : Z) :
  rounds_half_even (magnitude c e) exp (rescaled c e exp).
Proof.
  unfold rescaled. destruct (Z.leb_spec exp e) as [Hle|Hgt].
  - assert (Hx : (magnitude c e == magnitude (c * 10 ^ Z.to_N (e - exp)) exp)%Q).
    { rewrite magnitude_shift.
      replace (exp + Z.of_N (Z.to_N (e - exp)))%Z with e by lia. reflexivity. }
    unfold rounds_half_even. rewrite Hx.
    set (m := magnitude _ exp).
    assert (H0 : (m - m == 0)%Q) by ring.
    assert (Hhalf : (0 < (1 # 2) * 10 ^ exp)%Q).
    { apply Qmult_lt_0_compat; [reflexivity | apply Qpow10_pos]. }
    rewrite H0. simpl Qabs. split.
    + apply Qlt_le_weak. exact Hhalf.
    + intros Heq. rewrite <- Heq in Hhalf. discriminate.
  - replace exp with (e + Z.of_N (Z.to_N (exp - e)))%Z at 1 by lia.
    destruct (round_half_even_near c (Z.to_N (exp - e))) as (Hlo & Hhi & Htie).
    apply rounds_half_even_intro; assumption.
Qed.

(** ** [_fix] and [quantize] *)

Lemma ndigits_le_prec (c : N) : decimal.ndigits c <= decimal.prec <-> (c < 10 ^ 28)%N.
Proof. apply (ndigits_le_iff c 28). lia. Qed.

(** A coefficient within the precision, at an exponent within the bounds,
    is left as it is. *)
Lemma fix_id (s : bool) (c : N) (e : Z) :
  (c < 10 ^ 28)%N -> decimal.Etiny <= e <= decimal.Etop ->
  decimal._fix (Finite s c e) = Return (Finite s c e).
Proof.
  intros Hc He. apply ndigits_le_prec in Hc. unfold decimal._fix. cbv zeta.
  pose proof (ndigits_pos c) as Hd.
  destruct (N.eqb_spec c 0) as [->|Hnz].
  - f_equal. f_equal. context_constants. lia.
  - destruct (Z.ltb_spec decimal.Etop (decimal.ndigits c + e - decimal.prec)) as [H|_];
      [context_constants; lia|].
    destruct (Z.ltb_spec (decimal.ndigits c + e - decimal.prec) decimal.Etiny) as [H1|H1].
    + destruct (Z.ltb_spec e decimal.Etiny) as [H2|H2]; [lia | reflexivity].
    + destruct (Z.ltb_spec e (decimal.ndigits c + e - decimal.prec)) as [H2|H2];
        [context_constants; lia | reflexivity].
Qed.

(** A value of at least [10^(28 + exp)] has more than 28 digits at the
    exponent [exp]. *)
Lemma rescaled_large (c : N) (e exp : Z) :
  c <> 0%N -> 28 <= decimal.adjusted c e - exp -> (10 ^ 28 <= rescaled c e exp)%N.
Proof.
  intros Hc Hadj. unfold decimal.adjusted in Hadj.
  pose proof (ndigits_pos c) as Hd.
  destruct (ndigits_spec c) as [Hlo _]; [lia|].
  unfold rescaled. destruct (Z.leb_spec exp e) as [Hle|Hgt].
  - apply N.le_trans with (10 ^ Z.to_N (decimal.ndigits c - 1) * 10 ^ Z.to_N (e - exp))%N.
    + rewrite <- N.pow_add_r. apply N.pow_le_mono_r; lia.
    + apply N.mul_le_mono_r. exact Hlo.
  - eapply N.le_trans; [|apply round_half_even_ge].
    apply N.div_le_lower_bound; [apply N.pow_nonzero; lia|].
    eapply N.le_trans; [|exact Hlo].
    rewrite <- N.pow_add_r. apply N.pow_le_mono_r; lia.
Qed.

(** [quantize] at an exponent [exp] gives the value rounded half to even at
    [10^exp] when the rounded coefficient has at most 28 digits, and signals
    InvalidOperation otherwise. *)
Lemma quantize_finite (s s' : bool) (c c' : N) (e exp : Z) :
  decimal.Etiny <= exp <= decimal.Etop ->
  decimal.quantize (Finite s c e) (Finite s' c' exp)
  = if (rescaled c e exp <? 10 ^ 28)%N
    then Return (Finite s (rescaled c e exp) exp)
    else Raise InvalidOperation.
Proof.
  intros Hexp. unfold decimal.quantize.
  replace ((decimal.Etiny <=? exp) && (exp <=? decimal.Emax)) with true
    by (symmetry; apply andb_true_intro; split; apply Z.leb_le; context_constants; lia).
  cbn [negb].
  destruct (N.eqb_spec c 0) as [->|Hc].
  - assert (H0 : rescaled 0 e exp = 0%N).
    { pose proof (rescale_finite s 0 e exp) as H. cbn in H. congruence. }
    rewrite H0. cbn [N.ltb N.compare N.pow]. apply fix_id; [reflexivity | exact Hexp].
  - destruct (Z.ltb_spec decimal.Emax (decimal.adjusted c e)) as [H1|H1].
    { pose proof (rescaled_large c e exp Hc) as Hbig.
      destruct (N.ltb_spec (rescaled c e exp) (10 ^ 28)) as [Hlt|_]; [|reflexivity].
      context_constants. lia. }
    destruct (Z.ltb_spec decimal.prec (decimal.adjusted c e - exp + 1)) as [H2|H2].
    { pose proof (rescaled_large c e exp Hc) as Hbig.
      destruct (N.ltb_spec (rescaled c e exp) (10 ^ 28)) as [Hlt|_]; [|reflexivity].
      context_constants. lia. }
    rewrite rescale_finite.
    pose proof (ndigits_le_prec (rescaled c e exp)) as Hp.
    pose proof (ndigits_pos (rescaled c e exp)) as Hd.
    unfold decimal.adjusted at 1.
    destruct (N.ltb_spec (rescaled c e exp) (10 ^ 28)) as [Hlt|Hge].
    + destruct (Z.ltb_spec decimal.Emax (exp + decimal.ndigits (rescaled c e exp) - 1));
        [context_constants; lia|].
      destruct (Z.ltb_spec decimal.prec (decimal.ndigits (rescaled c e exp)));
        [context_constants; lia|].
      apply fix_id; assumption.
    + destruct (Z.ltb_spec decimal.Emax (exp + decimal.ndigits (rescaled c e exp) - 1));
        [reflexivity|].
      destruct (Z.ltb_spec decimal.prec (decimal.ndigits (rescaled c e exp)));
        [reflexivity|].
      exfalso. apply N.le_ngt in Hge. apply Hge, Hp. assumption.
Qed.

Lemma round_half_even_le (c k : N) :
  (decimal.round_half_even c k <= c / 10 ^ k + 1)%N.
Proof.
  unfold decimal.round_half_even.
  destruct (2 * (c mod 10 ^ k) ?= 10 ^ k)%N; [destruct (N.even _)| |]; lia.
Qed.

Lemma rescaled_small (c : N) (e exp : Z) (j : N) :
  (c < 10 ^ j)%N -> Z.of_N j < exp - e -> rescaled c e exp = 0%N.
Proof.
  intros Hc Hj. unfold rescaled.
  destruct (Z.leb_spec exp e) as [Hle|Hgt]; [lia|].
  apply round_half_even_small.
  assert (Hmono : (10 ^ N.succ j <= 10 ^ Z.to_N (exp - e))%N)
    by (apply N.pow_le_mono_r; lia).
  rewrite N.pow_succ_r' in Hmono. lia.
Qed.

(** ** The validation of strikes and multipliers *)

Lemma not_finite_or_le_0_spec (d : Decimal) :
  not_finite_or_le_0 d = Return (negb (positive_finite d)).
Proof.
  destruct d as [[|] c e | s | s sg]; cbn; try reflexivity.
  destruct (c =? 0)%N; reflexivity.
Qed.

Lemma positive_finite_inv (d : Decimal) :
  positive_finite d = true -> exists c e, d = Finite false c e /\ c <> 0%N.
Proof.
  destruct d as [[|] c e | s | s sg]; cbn; try discriminate.
  destruct (N.eqb_spec c 0); [discriminate|]. intros _. eauto.
Qed.

(** ** [strike * 1000] and its format *)

Lemma of_int_1000 : decimal.of_int 1000 = Finite false (10 ^ 3) 0.
Proof. reflexivity. Qed.

(** The product is computed whenever the strike could be quantized. *)
Lemma mul_1000_returns (c : N) (e : Z) :
  c <> 0%N -> decimal.adjusted c e <= 24 ->
  exists c' e', decimal.mul (Finite false c e) (decimal.of_int 1000)
                = Return (Finite false c' e').
Proof.
  intros Hc Hadj. rewrite of_int_1000. unfold decimal.mul, decimal._fix. cbv zeta.
  cbn [xorb]. unfold decimal.adjusted in Hadj.
  pose proof (pow10_pos 3) as H3.
  rewrite ndigits_mul_pow10 by lia.
  destruct (N.eqb_spec (c * 10 ^ 3) 0) as [H0|_]; [lia|].
  set (nd := decimal.ndigits c) in *.
  destruct (Z.ltb_spec decimal.Etop (nd + Z.of_N 3 + (e + 0) - decimal.prec));
    [context_constants; lia|].
  destruct (Z.ltb_spec (nd + Z.of_N 3 + (e + 0) - decimal.prec) decimal.Etiny) as [H1|H1].
  - destruct (Z.ltb_spec (e + 0) decimal.Etiny) as [H2|H2]; [|eauto].
    match goal with |- context [decimal.prec <? ?x] =>
      destruct (decimal.prec <? x) end.
    + destruct (Z.ltb_spec decimal.Etop (decimal.Etiny + 1));
        [context_constants; lia | eauto].
    + destruct (Z.ltb_spec decimal.Etop decimal.Etiny);
        [context_constants; lia | eauto].
  - destruct (Z.ltb_spec (e + 0) (nd + Z.of_N 3 + (e + 0) - decimal.prec)) as [H2|H2];
      [|eauto].
    match goal with |- context [decimal.prec <? ?x] =>
      destruct (decimal.prec <? x) end.
    + destruct (Z.ltb_spec decimal.Etop (nd + Z.of_N 3 + (e + 0) - decimal.prec + 1));
        [context_constants; lia | eauto].
    + destruct (Z.ltb_spec decimal.Etop (nd + Z.of_N 3 + (e + 0) - decimal.prec));
        [context_constants; lia | eauto].
Qed.

(** Rounding [c * 10^j] at [exp] is rounding [c] at [exp - j]. *)
Lemma rescaled_shift (c : N) (e exp : Z) (j : N) :
  rescaled (c * 10 ^ j) e exp = rescaled c e (exp - Z.of_N j).
Proof.
  unfold rescaled.
  destruct (Z.leb_spec exp e) as [Hle|Hgt].
  - destruct (Z.leb_spec (exp - Z.of_N j) e) as [_|H]; [|lia].
    rewrite <- N.mul_assoc, <- N.pow_add_r. do 2 f_equal. lia.
  - destruct (Z.leb_spec (exp - Z.of_N j) e) as [Hle'|Hgt'].
    + rewrite round_half_even_exact by lia. do 2 f_equal. lia.
    + replace (Z.to_N (exp - e)) with (Z.to_N (exp - Z.of_N j - e) + j)%N by lia.
      apply round_half_even_shift.
Qed.

Lemma pow10_28_lt_29 : (10 ^ 28 < 10 ^ 29)%N.
Proof. reflexivity. Qed.

(** For a strike of at most 25 digits the product [strike * 1000] is
    exact, or far below one, and its format shows the thousandths of the
    quantized strike. *)
Lemma mul_1000_format (c : N) (e : Z) :
  c <> 0%N -> decimal.ndigits c <= 25 -> decimal.adjusted c e <= 24 ->
  exists d, decimal.mul (Finite false c e) (decimal.of_int 1000) = Return d
            /\ decimal.format_08_0f d = str.zfill 8 (str.of_N (rescaled c e (-3))).
Proof.
  intros Hc Hnd Hadj. rewrite of_int_1000.
  pose proof (pow10_pos 3) as H3.
  pose proof (ndigits_pos c) as Hd.
  assert (Hnd3 : decimal.ndigits (c * 10 ^ 3) = decimal.ndigits c + 3)
    by (rewrite ndigits_mul_pow10 by lia; reflexivity).
  assert (Hlt : (c * 10 ^ 3 < 10 ^ 28)%N) by (apply ndigits_le_prec; context_constants; lia).
  unfold decimal.adjusted in Hadj.
  unfold decimal.mul. cbn [xorb]. rewrite Z.add_0_r.
  destruct (Z.le_gt_cases decimal.Etiny e) as [Hbig|Htiny].
  - rewrite fix_id by (try assumption; context_constants; lia).
    eexists. split; [reflexivity|].
    unfold decimal.format_08_0f. rewrite rescale_finite, rescaled_shift.
    reflexivity.
  - assert (Hq : rescaled c e (-3) = 0%N).
    { apply rescaled_small with (j := 25%N).
      - apply (ndigits_le_iff c 25); lia.
      - context_constants. lia. }
    rewrite Hq.
    unfold decimal._fix. cbv zeta. rewrite Hnd3.
    destruct (N.eqb_spec (c * 10 ^ 3) 0) as [H0|_]; [lia|].
    destruct (Z.ltb_spec decimal.Etop (decimal.ndigits c + 3 + e - decimal.prec));
      [context_constants; lia|].
    destruct (Z.ltb_spec (decimal.ndigits c + 3 + e - decimal.prec) decimal.Etiny);
      [|context_constants; lia].
    destruct (Z.ltb_spec e decimal.Etiny); [|lia].
    set (coeff := if decimal.ndigits c + 3 + e - decimal.Etiny <? 0 then 0%N
                  else decimal.round_half_even (c * 10 ^ 3) (Z.to_N (decimal.Etiny - e))).
    assert (Hcoeff : (coeff <= 10 ^ 28)%N).
    { unfold coeff. destruct (_ <? 0); [lia|].
      eapply N.le_trans; [apply round_half_even_le|].
      pose proof (N.Div0.div_le_upper_bound (c * 10 ^ 3) (10 ^ Z.to_N (decimal.Etiny - e))
                    (c * 10 ^ 3)) as Hdiv.
      pose proof (pow10_pos (Z.to_N (decimal.Etiny - e))) as Hpk.
      assert ((c * 10 ^ 3 / 10 ^ Z.to_N (decimal.Etiny - e) <= c * 10 ^ 3)%N)
        by (apply N.Div0.div_le_upper_bound; nia).
      lia. }
    assert (Hzero : forall c' e', (c' <= 10 ^ 28)%N -> e' <= decimal.Etiny + 1 ->
              decimal.format_08_0f (Finite false c' e') = str.zfill 8 (str.of_N 0)).
    { intros c' e' Hc' He'. unfold decimal.format_08_0f.
      rewrite rescale_finite, (rescaled_small c' e' 0 29%N); [reflexivity| |].
      - apply N.le_lt_trans with (10 ^ 28)%N; [exact Hc' | exact pow10_28_lt_29].
      - context_constants. lia. }
    destruct (decimal.prec <? decimal.ndigits coeff).
    + destruct (Z.ltb_spec decimal.Etop (decimal.Etiny + 1));
        [context_constants; lia|].
      eexists. split; [reflexivity|]. apply Hzero; [|lia].
      eapply N.le_trans; [|exact Hcoeff]. apply N.Div0.div_le_upper_bound. lia.
    + destruct (Z.ltb_spec decimal.Etop decimal.Etiny);
        [context_constants; lia|].
      eexists. split; [reflexivity|]. apply Hzero; [assumption|lia].
Qed.

(** ** The constructors, step by step *)

Lemma Instrument_init_spec (self : string -> option Currency -> Instrument)
    (symbol : string) (currency : option Currency) :
  Instrument.__init__ self symbol currency
  = if (symbol =? "")%string then Raise (Value_Error EmptySymbol)
    else match currency with
         | None => Raise (Value_Error MissingCurrency)
         | Some _ => Return (self symbol currency)
         end.
Proof.
  unfold Instrument.__init__, Instrument.__post_init__.
  destruct (symbol =? "")%string; [reflexivity|].
  destruct currency; reflexivity.
Qed.

(** A strike that has been quantized is below [10^25]. *)
Lemma quantized_adjusted (c : N) (e : Z) :
  c <> 0%N -> (rescaled c e (-3) < 10 ^ 28)%N -> decimal.adjusted c e <= 24.
Proof.
  intros Hc Hlt.
  destruct (Z.le_gt_cases (decimal.adjusted c e) 24) as [H|H]; [exact H|].
  pose proof (rescaled_large c e (-3) Hc). lia.
Qed.

(** After the three validations [Option.__init__] quantizes the strike and
    the multiplier, derives the symbol when none is given, and hands over
    to the [__init__] of [Instrument]. *)
Lemma Option_init_valid
    (self : string -> option Currency -> string -> OptionType -> date ->
            Decimal -> Decimal -> Instrument)
    (u : string) (cur : option Currency) (ot : OptionType) (ex : date)
    (c : N) (e : Z) (cm : N) (em : Z) (sym : option string) :
  u <> "" -> c <> 0%N -> cm <> 0%N ->
  Option.__init__ self u cur ot ex (Finite false c e) (Finite false cm em) sym
  = if (rescaled c e (-3) <? 10 ^ 28)%N then
      if (rescaled cm em (-1) <? 10 ^ 28)%N then
        symbol <- match sym with
                  | Some symbol => Return symbol
                  | None =>
                      strike_1000 <- decimal.mul (Finite false c e) (decimal.of_int 1000) ;;
                      Return (str.ljust 6 u ++ datetime.strftime_y_m_d ex ++
                              OptionType_value ot ++ decimal.format_08_0f strike_1000)
                  end ;;
        Instrument.__init__
          (fun symbol currency =>
             self symbol currency u ot ex
                  (Finite false (rescaled c e (-3)) (-3))
                  (Finite false (rescaled cm em (-1)) (-1)))
          symbol cur
      else Raise InvalidOperation
    else Raise InvalidOperation.
Proof.
  intros Hu Hc Hcm. unfold Option.__init__.
  apply String.eqb_neq in Hu. rewrite Hu.
  rewrite !not_finite_or_le_0_spec. cbn [positive_finite].
  apply N.eqb_neq in Hc, Hcm. rewrite Hc, Hcm. cbn [negb raise_if bind Return].
  unfold Option.quantizeStrike, Option.strikeQuantization,
    Instrument.quantizeMultiplier, Instrument.multiplierQuantization.
  rewrite !quantize_finite by (context_constants; lia).
  destruct (rescaled c e (-3) <? 10 ^ 28)%N; [|reflexivity].
  cbn [bind Return].
  destruct (rescaled cm em (-1) <? 10 ^ 28)%N; reflexivity.
Qed.

(** A strike or a multiplier that is not finite and positive stops the
    construction. *)
Lemma Option_init_bad_strike
    (self : string -> option Currency -> string -> OptionType -> date ->
            Decimal -> Decimal -> Instrument)
    (u : string) (cur : option Currency) (ot : OptionType) (ex : date)
    (strike mult : Decimal) (sym : option string) :
  u <> "" -> positive_finite strike = false ->
  Option.__init__ self u cur ot ex strike mult sym
  = Raise (Value_Error (NonPositiveStrike strike)).
Proof.
  intros Hu Hs. unfold Option.__init__.
  apply String.eqb_neq in Hu. rewrite Hu.
  rewrite not_finite_or_le_0_spec, Hs. reflexivity.
Qed.

Lemma Option_init_bad_multiplier
    (self : string -> option Currency -> string -> OptionType -> date ->
            Decimal -> Decimal -> Instrument)
    (u : string) (cur : option Currency) (ot : OptionType) (ex : date)
    (strike mult : Decimal) (sym : option string) :
  u <> "" -> positive_finite strike = true -> positive_finite mult = false ->
  Option.__init__ self u cur ot ex strike mult sym
  = Raise (Value_Error (NonPositiveMultiplier mult)).
Proof.
  intros Hu Hs Hm. unfold Option.__init__.
  apply String.eqb_neq in Hu. rewrite Hu.
  rewrite !not_finite_or_le_0_spec, Hs, Hm. reflexivity.
Qed.

Lemma Option_init_empty_underlying
    (self : string -> option Currency -> string -> OptionType -> date ->
            Decimal -> Decimal -> Instrument)
    (cur : option Currency) (ot : OptionType) (ex : date)
    (strike mult : Decimal) (sym : option string) :
  Option.__init__ self "" cur ot ex strike mult sym
  = Raise (Value_Error EmptyUnderlying).
Proof. reflexivity. Qed.

(** [positive_finite] is the negation of the test of the source. *)
Lemma positive_finite_false_iff (d : Decimal) :
  positive_finite d = false
  <-> (decimal.is_finite d = false \/ decimal.le_0 d = Return true).
Proof.
  destruct d as [[|] c e | s | s sg]; cbn.
  - split; [right; reflexivity | reflexivity].
  - destruct (c =? 0)%N; cbn; split; intros H; try reflexivity; try discriminate.
    + right; reflexivity.
    + destruct H; discriminate.
  - split; [left; reflexivity | reflexivity].
  - split; [left; reflexivity | reflexivity].
Qed.

(** * The claims *)

(** ** Quantization of the multiplier *)

(** C8, as the code has it: [quantizeMultiplier] rounds a finite decimal
    half to even at the step 0.1 whenever the rounded value fits the 28
    digits of the context, that is when it is below [10^27], and signals
    InvalidOperation otherwise; 100.04 and 100.05 both give 100.0. *)
Theorem quantizeMultiplier_rounds (s : bool) (c : N) (e : Z) :
  (exists n : N,
      rounds_half_even (magnitude c e) (-1) n
      /\ Instrument.quantizeMultiplier (Finite s c e)
         = if (n <? 10 ^ 28)%N then Return (Finite s n (-1))
           else Raise InvalidOperation)
  /\ Instrument.quantizeMultiplier (Finite false 10004 (-2))
     = Return (Finite false 1000 (-1))
  /\ Instrument.quantizeMultiplier (Finite false 10005 (-2))
     = Return (Finite false 1000 (-1)).
Proof.
  split; [|split; vm_compute; reflexivity].
  exists (rescaled c e (-1)). split; [apply rescaled_rounds|].
  unfold Instrument.quantizeMultiplier, Instrument.multiplierQuantization.
  apply quantize_finite. context_constants. lia.
Qed.

(** C8 as stated fails: [Decimal('1E+27')] is finite, and quantizing it
    raises instead of rounding. *)
Lemma quantizeMultiplier_1E27_raises :
  decimal.is_finite (Finite false 1 27) = true
  /\ Instrument.quantizeMultiplier (Finite false 1 27) = Raise InvalidOperation
  /\ ~ exists r, Instrument.quantizeMultiplier (Finite false 1 27) = Return r.
Proof.
  split; [reflexivity|]. split; [vm_compute; reflexivity|].
  intros [r H]. vm_compute in H. discriminate.
Qed.

(** ** The strike of an option *)

Lemma derived_symbol_nonempty (u rest : string) :
  u <> "" -> ((str.ljust 6 u ++ rest)%string =? "")%string = false.
Proof.
  destruct u as [|a u]; [congruence|]. intros _. reflexivity.
Qed.

Lemma quantizeMultiplier_returns (cm : N) (em : Z) (km : Decimal) :
  Instrument.quantizeMultiplier (Finite false cm em) = Return km ->
  (rescaled cm em (-1) < 10 ^ 28)%N /\ km = Finite false (rescaled cm em (-1)) (-1).
Proof.
  unfold Instrument.quantizeMultiplier, Instrument.multiplierQuantization.
  rewrite quantize_finite by (context_constants; lia).
  destruct (N.ltb_spec (rescaled cm em (-1)) (10 ^ 28)) as [Hlt|Hge]; intros H.
  - split; [exact Hlt|]. inversion H. reflexivity.
  - discriminate.
Qed.

(** With valid arguments, and a strike that can be quantized, the
    constructor returns the instance with the quantized values. *)
Lemma Option_init_returns
    (self : string -> option Currency -> string -> OptionType -> date ->
            Decimal -> Decimal -> Instrument)
    (u : string) (cy : Currency) (ot : OptionType) (ex : date)
    (c : N) (e : Z) (cm : N) (em : Z) (sym : option string) :
  u <> "" -> c <> 0%N -> cm <> 0%N -> sym <> Some "" ->
  (rescaled c e (-3) < 10 ^ 28)%N -> (rescaled cm em (-1) < 10 ^ 28)%N ->
  exists symbol,
    Option.__init__ self u (Some cy) ot ex (Finite false c e) (Finite false cm em) sym
    = Return (self symbol (Some cy) u ot ex
                   (Finite false (rescaled c e (-3)) (-3))
                   (Finite false (rescaled cm em (-1)) (-1)))
    /\ (forall s, sym = Some s -> symbol = s).
Proof.
  intros Hu Hc Hcm Hsym Hs Hm.
  rewrite Option_init_valid by assumption.
  apply N.ltb_lt in Hs, Hm. rewrite Hs, Hm.
  destruct sym as [s|].
  - exists s. cbn [bind Return]. rewrite Instrument_init_spec.
    assert (Hne : (s =? "")%string = false) by (apply String.eqb_neq; congruence).
    rewrite Hne. split; [reflexivity|]. intros s' [= ->]. reflexivity.
  - apply N.ltb_lt in Hs.
    destruct (mul_1000_returns c e Hc (quantized_adjusted c e Hc Hs)) as (c' & e' & Hmul).
    rewrite Hmul. cbn [bind Return]. rewrite Instrument_init_spec.
    rewrite derived_symbol_nonempty by assumption.
    eexists. split; [reflexivity|]. intros s [=].
Qed.

(** C5, as the code has it: a strike that is not finite or not above zero
    stops the construction with the error on the strike (after the check of
    the underlying); a finite strike above zero, with the other arguments
    valid, gives an instance whose strike is the argument rounded half to
    even to three decimals when that rounded value fits the 28 digits of
    the context, that is when it is below [10^25], and InvalidOperation
    otherwise. *)
Theorem Option_strike_validation
    (u : string) (cur : option Currency) (ot : OptionType) (ex : date)
    (strike mult : Decimal) (sym : option string) :
  (decimal.is_finite strike = false \/ decimal.le_0 strike = Return true ->
   raised (Option.__init__ Option u cur ot ex strike mult sym)
   /\ (u <> "" ->
       Option.__init__ Option u cur ot ex strike mult sym
       = Raise (Value_Error (NonPositiveStrike strike))))
  /\ (forall (c : N) (e : Z) (km : Decimal) (cy : Currency),
         strike = Finite false c e -> c <> 0%N ->
         u <> "" -> cur = Some cy -> sym <> Some "" ->
         positive_finite mult = true ->
         Instrument.quantizeMultiplier mult = Return km ->
         exists n : N,
           rounds_half_even (magnitude c e) (-3) n
           /\ if (n <? 10 ^ 28)%N
              then exists o,
                  Option.__init__ Option u cur ot ex strike mult sym = Return o
                  /\ Option.strike o = Some (Finite false n (-3))
              else Option.__init__ Option u cur ot ex strike mult sym
                   = Raise InvalidOperation).
Proof.
  split.
  - intros Hbad. apply positive_finite_false_iff in Hbad.
    assert (Hraise : u <> "" ->
              Option.__init__ Option u cur ot ex strike mult sym
              = Raise (Value_Error (NonPositiveStrike strike)))
      by (intros Hu; apply Option_init_bad_strike; assumption).
    split; [|exact Hraise].
    destruct u as [|a u]; [eexists; reflexivity|].
    eexists. apply Hraise. discriminate.
  - intros c e km cy -> Hc Hu -> Hsym Hm Hq.
    destruct (positive_finite_inv mult Hm) as (cm & em & -> & Hcm).
    apply quantizeMultiplier_returns in Hq. destruct Hq as [Hlt ->].
    exists (rescaled c e (-3)). split; [apply rescaled_rounds|].
    destruct (N.ltb_spec (rescaled c e (-3)) (10 ^ 28)) as [Hs|Hs].
    + destruct (Option_init_returns Option u cy ot ex c e cm em sym)
        as (symbol & Hret & _); try assumption.
      eexists. split; [exact Hret | reflexivity].
    + rewrite Option_init_valid by assumption.
      apply N.ltb_ge in Hs. rewrite Hs. reflexivity.
Qed.

(** C5 as stated fails: the strike [Decimal('1E+25')] is finite and above
    zero and the other arguments are valid, yet no instance is made. *)
Lemma Option_strike_1E25_raises :
  positive_finite (Finite false 1 25) = true
  /\ Option.__init__ Option "AAPL" (Some USD) PUT date_2021_01_15
       (Finite false 1 25) Option.multiplier_default None
     = Raise InvalidOperation.
Proof. split; vm_compute; reflexivity. Qed.

Lemma Option_strike_validation_witness :
  positive_finite (Finite false 15000 (-2)) = true
  /\ exists n : N,
      rounds_half_even (magnitude 15000 (-2)) (-3) n
      /\ if (n <? 10 ^ 28)%N
         then exists o,
             Option.__init__ Option "AAPL" (Some USD) PUT date_2021_01_15
               (Finite false 15000 (-2)) Option.multiplier_default None = Return o
             /\ Option.strike o = Some (Finite false n (-3))
         else Option.__init__ Option "AAPL" (Some USD) PUT date_2021_01_15
                (Finite false 15000 (-2)) Option.multiplier_default None
              = Raise InvalidOperation.
Proof.
  split; [reflexivity|].
  apply (proj2 (Option_strike_validation "AAPL" (Some USD) PUT date_2021_01_15
                  (Finite false 15000 (-2)) Option.multiplier_default None)
               15000%N (-2) (Finite false 1000 (-1)) USD);
    try reflexivity; discriminate.
Defined.

(** ** The invariants of an option *)

(** C2 fails on the code: the strike [Decimal('0.0001')] and the multiplier
    [Decimal('0.04')] pass the validation, which looks at the arguments,
    and the instance keeps their quantized values, which are zero. *)
Theorem Option_stored_strike_zero :
  positive_finite (Finite false 1 (-4)) = true
  /\ positive_finite (Finite false 4 (-2)) = true
  /\ Option.__init__ Option "AAPL" (Some USD) PUT date_2021_01_15
       (Finite false 1 (-4)) (Finite false 4 (-2)) None
     = Return (Option "AAPL  210115P00000000" (Some USD) "AAPL" PUT date_2021_01_15
                      (Finite false 0 (-3)) (Finite false 0 (-1)))
  /\ decimal.le_0 (Finite false 0 (-3)) = Return true
  /\ decimal.le_0 (Finite false 0 (-1)) = Return true.
Proof. repeat split; vm_compute; reflexivity. Qed.

(** ** The derived symbol of an option *)

Lemma of_N_length_le (n : N) (k : nat) :
  (1 <= k)%nat -> (n < 10 ^ N.of_nat k)%N -> (String.length (str.of_N n) <= k)%nat.
Proof.
  intros Hk Hn.
  assert (H : decimal.ndigits n <= Z.of_nat k).
  { apply ndigits_le_iff; [lia|]. replace (Z.to_N (Z.of_nat k)) with (N.of_nat k) by lia.
    exact Hn. }
  unfold decimal.ndigits in H. lia.
Qed.

Lemma length_zfill_of_N (n : N) (k : nat) :
  (1 <= k)%nat -> (n < 10 ^ N.of_nat k)%N ->
  String.length (str.zfill k (str.of_N n)) = k.
Proof.
  intros Hk Hn. rewrite length_zfill.
  pose proof (of_N_length_le n k Hk Hn). lia.
Qed.

Lemma days_in_month_le (y m : N) : (datetime.days_in_month y m <= 31)%N.
Proof.
  unfold datetime.days_in_month.
  destruct (m =? 2)%N; [destruct (datetime.is_leap y); lia|].
  destruct (_ || _); lia.
Qed.

(** The date of a valid [date] is written with six digits. *)
Lemma length_strftime (d : date) :
  datetime.valid d = true -> String.length (datetime.strftime_y_m_d d) = 6%nat.
Proof.
  unfold datetime.valid. rewrite !andb_true_iff, !N.leb_le.
  intros [[[[[_ _] _] Hm] _] Hd].
  pose proof (days_in_month_le (datetime.year d) (datetime.month d)) as H31.
  unfold datetime.strftime_y_m_d. rewrite !length_append.
  rewrite !(length_zfill_of_N _ 2); [reflexivity | lia | | lia | | lia |].
  - change (10 ^ N.of_nat 2)%N with 100%N. lia.
  - change (10 ^ N.of_nat 2)%N with 100%N. lia.
  - change (10 ^ N.of_nat 2)%N with 100%N. apply N.mod_lt. lia.
Qed.

Lemma Option_init_Return_inv
    (self : string -> option Currency -> string -> OptionType -> date ->
            Decimal -> Decimal -> Instrument)
    (u : string) (cur : option Currency) (ot : OptionType) (ex : date)
    (strike mult : Decimal) (sym : option string) (o : Instrument) :
  Option.__init__ self u cur ot ex strike mult sym = Return o ->
  u <> "" /\ positive_finite strike = true /\ positive_finite mult = true.
Proof.
  intros H.
  assert (Hu : u <> "").
  { intros ->. rewrite Option_init_empty_underlying in H. discriminate. }
  split; [exact Hu|].
  destruct (positive_finite strike) eqn:Hs.
  2:{ rewrite Option_init_bad_strike in H by assumption. discriminate. }
  split; [reflexivity|].
  destruct (positive_finite mult) eqn:Hm; [reflexivity|].
  rewrite Option_init_bad_multiplier in H by assumption. discriminate.
Qed.







(** Beyond 28 digits the product [strike * 1000] is rounded to the 28
    digits of the context before the format rounds it to an integer: the
    symbol of the strike 1.0014999999999999999999999999 ends in 1002, and
    the quantized strike is 1.001. *)
Lemma Option_symbol_double_rounding :
  Option.__init__ Option "AAPL" (Some USD) PUT date_2021_01_15
    (Finite false 10014999999999999999999999999 (-28)) Option.multiplier_default None
  = Return (Option "AAPL  210115P00001002" (Some USD) "AAPL" PUT date_2021_01_15
                   (Finite false 1001 (-3)) (Finite false 1000 (-1))).
Proof. vm_compute. reflexivity. Qed.

(** ** Bonds *)

(** C4, as the code has it: a symbol that does not match the CUSIP pattern
    stops the construction of a bond with validation enabled, with the
    error that names the symbol; with validation disabled the same symbol
    is accepted when it is not empty (and a currency is given): the check
    of [Instrument] for an empty symbol remains. *)
Theorem Bond_validation (symbol : string) (currency : option Currency) :
  Bond.validBondSymbol symbol = false ->
  Bond.__init__ symbol currency true = Raise (Value_Error (InvalidCUSIP symbol))
  /\ (symbol <> "" -> currency <> None ->
      Bond.__init__ symbol currency false = Return (Bond symbol currency))
  /\ (symbol = "" ->
      Bond.__init__ symbol currency false = Raise (Value_Error EmptySymbol)).
Proof.
  intros Hbad. unfold Bond.__init__, Bond.__post_init__. rewrite Hbad.
  split; [reflexivity|]. cbn [andb raise_if bind Return].
  unfold Instrument.__post_init__. split.
  - intros Hs Hc. apply String.eqb_neq in Hs. rewrite Hs.
    destruct currency; [reflexivity | congruence].
  - intros ->. reflexivity.
Qed.

Lemma Bond_validation_witness :
  Bond.validBondSymbol "US-TBILL" = false
  /\ Bond.__init__ "US-TBILL" (Some USD) true
     = Raise (Value_Error (InvalidCUSIP "US-TBILL"))
  /\ Bond.__init__ "US-TBILL" (Some USD) false = Return (Bond "US-TBILL" (Some USD)).
Proof.
  split; [reflexivity|].
  destruct (Bond_validation "US-TBILL" (Some USD)) as (Hon & Hoff & _);
    [reflexivity|].
  split; [exact Hon|]. apply Hoff; discriminate.
Defined.

(** C4 as stated fails: the empty symbol does not match the pattern, and
    it is refused with validation disabled too. *)
Lemma Bond_empty_symbol_unvalidated :
  Bond.validBondSymbol "" = false
  /\ Bond.__init__ "" (Some USD) false = Raise (Value_Error EmptySymbol).
Proof. split; reflexivity. Qed.

(** The pattern accepts the nine characters of a CUSIP. *)
Example validBondSymbol_CUSIP : Bond.validBondSymbol "912828ZT0" = true.
Proof. reflexivity. Qed.

(** ** Forex *)

Lemma Currency_eqb_spec (a b : Currency) : reflect (a = b) (Currency_.eqb a b).
Proof. destruct a, b; cbn; constructor; congruence. Qed.

Lemma Currency_name_nonempty (c : Currency) (rest : string) :
  ((Currency_.name c ++ rest)%string =? "")%string = false.
Proof. destruct c; reflexivity. Qed.

(** C7: a pair of one currency with itself is refused; a pair of two
    distinct currencies is made, its symbol is the name of the base followed
    by the name of the quote, [quoteCurrency] is the field [currency] and
    holds the quote, [baseCurrency] holds the base; USD and EUR give
    [USDEUR]. *)
Theorem Forex_construction (base quote : Currency) :
  (base = quote ->
   Forex.__init__ base quote
   = Raise (Value_Error (IdenticalForexCurrencies base quote)))
  /\ (base <> quote ->
      exists o,
        Forex.__init__ base quote = Return o
        /\ Instrument.symbol o = (Currency_.name base ++ Currency_.name quote)%string
        /\ Forex.quoteCurrency o = Instrument.currency o
        /\ Forex.quoteCurrency o = Some quote
        /\ Forex.baseCurrency o = Some base)
  /\ Forex.__init__ USD USD = Raise (Value_Error (IdenticalForexCurrencies USD USD))
  /\ Forex.__init__ USD EUR = Return (Forex "USDEUR" (Some EUR) USD).
Proof.
  unfold Forex.__init__.
  split; [|split; [|split; reflexivity]].
  - intros ->. destruct (Currency_eqb_spec quote quote); [reflexivity | congruence].
  - intros Hne. destruct (Currency_eqb_spec base quote); [congruence|].
    cbn [raise_if bind Return]. rewrite Instrument_init_spec, Currency_name_nonempty.
    eexists. split; [reflexivity|]. repeat split.
Qed.

Lemma Forex_construction_witness :
  USD <> EUR
  /\ exists o,
      Forex.__init__ USD EUR = Return o
      /\ Instrument.symbol o = "USDEUR"
      /\ Forex.quoteCurrency o = Some EUR
      /\ Forex.baseCurrency o = Some USD.
Proof.
  split; [discriminate|].
  destruct (proj1 (proj2 (Forex_construction USD EUR))) as (o & H & Hs & _ & Hq & Hb);
    [discriminate|].
  exists o. repeat split; assumption.
Defined.

(** ** The outcomes of the constructors of options and futures *)

Lemma quantize_finite_cases (s : bool) (c : N) (e exp : Z) :
  decimal.Etiny <= exp <= decimal.Etop ->
  ((rescaled c e exp < 10 ^ 28)%N
   /\ decimal.quantize (Finite s c e) (Finite false 1 exp)
      = Return (Finite s (rescaled c e exp) exp))
  \/ ((10 ^ 28 <= rescaled c e exp)%N
      /\ decimal.quantize (Finite s c e) (Finite false 1 exp) = Raise InvalidOperation).
Proof.
  intros Hexp. rewrite quantize_finite by assumption.
  destruct (N.ltb_spec (rescaled c e exp) (10 ^ 28)); [left | right]; split;
    assumption || reflexivity.
Qed.

(** [Option.__init__] ends in one of three ways: a [ValueError]; the
    InvalidOperation of a quantization; or the instance, with the given
    symbol when there is one, a non-empty symbol and a currency. *)
Lemma Option_init_cases
    (self : string -> option Currency -> string -> OptionType -> date ->
            Decimal -> Decimal -> Instrument)
    (u : string) (cur : option Currency) (ot : OptionType) (ex : date)
    (strike mult : Decimal) (sym : option string) :
  validation_error (Option.__init__ self u cur ot ex strike mult sym)
  \/ (Option.__init__ self u cur ot ex strike mult sym = Raise InvalidOperation
      /\ (Option.quantizeStrike strike = Raise InvalidOperation
          \/ Instrument.quantizeMultiplier mult = Raise InvalidOperation))
  \/ (exists symbol cy ks km,
         Option.__init__ self u cur ot ex strike mult sym
         = Return (self symbol (Some cy) u ot ex ks km)
         /\ symbol <> "" /\ cur = Some cy /\ u <> ""
         /\ (forall s, sym = Some s -> symbol = s)
         /\ positive_finite strike = true /\ positive_finite mult = true
         /\ Option.quantizeStrike strike = Return ks
         /\ Instrument.quantizeMultiplier mult = Return km).
Proof.
  destruct (string_dec u "") as [->|Hu].
  { left. eexists. apply Option_init_empty_underlying. }
  destruct (positive_finite strike) eqn:Hs.
  2:{ left. eexists. apply Option_init_bad_strike; assumption. }
  destruct (positive_finite mult) eqn:Hm.
  2:{ left. eexists. apply Option_init_bad_multiplier; assumption. }
  destruct (positive_finite_inv strike Hs) as (c & e & -> & Hc).
  destruct (positive_finite_inv mult Hm) as (cm & em & -> & Hcm).
  rewrite Option_init_valid by assumption.
  unfold Option.quantizeStrike, Option.strikeQuantization,
    Instrument.quantizeMultiplier, Instrument.multiplierQuantization.
  destruct (quantize_finite_cases false c e (-3)) as [[Hlt Hq]|[Hge Hq]];
    [context_constants; lia | |].
  2:{ right. left. apply N.ltb_ge in Hge. rewrite Hge. split; [reflexivity|].
      left. exact Hq. }
  destruct (quantize_finite_cases false cm em (-1)) as [[Hltm Hqm]|[Hgem Hqm]];
    [context_constants; lia | |].
  2:{ right. left. apply N.ltb_lt in Hlt. apply N.ltb_ge in Hgem.
      rewrite Hlt, Hgem. split; [reflexivity|]. right. exact Hqm. }
  pose proof Hlt as Hlt'. apply N.ltb_lt in Hlt', Hltm. rewrite Hlt', Hltm.
  assert (Hfinal : forall symbol,
             (forall s, sym = Some s -> symbol = s) ->
             validation_error
               (Instrument.__init__
                  (fun symbol currency =>
                     self symbol currency u ot ex
                          (Finite false (rescaled c e (-3)) (-3))
                          (Finite false (rescaled cm em (-1)) (-1))) symbol cur)
             \/ exists cy,
                 Instrument.__init__
                   (fun symbol currency =>
                      self symbol currency u ot ex
                           (Finite false (rescaled c e (-3)) (-3))
                           (Finite false (rescaled cm em (-1)) (-1))) symbol cur
                 = Return (self symbol (Some cy) u ot ex
                                (Finite false (rescaled c e (-3)) (-3))
                                (Finite false (rescaled cm em (-1)) (-1)))
                 /\ symbol <> "" /\ cur = Some cy).
  { intros symbol _. rewrite Instrument_init_spec.
    destruct (String.eqb_spec symbol ""); [left; eexists; reflexivity|].
    destruct cur as [cy|]; [|left; eexists; reflexivity].
    right. exists cy. repeat split; assumption. }
  destruct sym as [s|].
  - cbn [bind Return].
    destruct (Hfinal s) as [Hv | (cy & Hret & Hne & Hcur)];
      [intros s' [= ->]; reflexivity | left; exact Hv |].
    right. right. exists s, cy. do 2 eexists. split; [exact Hret|].
    repeat split; try assumption. intros s' [= ->]. reflexivity.
  - destruct (mul_1000_returns c e Hc (quantized_adjusted c e Hc Hlt)) as (c' & e' & Hmul).
    rewrite Hmul. cbn [bind Return].
    match goal with |- context [Instrument.__init__ _ ?sy cur] =>
      destruct (Hfinal sy) as [Hv | (cy & Hret & Hne & Hcur)] end;
      [intros s' [=] | left; exact Hv |].
    right. right. do 4 eexists. split; [exact Hret|].
    repeat split; try assumption. intros s' [=].
Qed.

Lemma quantizeStrike_returns (c : N) (e : Z) (ks : Decimal) :
  Option.quantizeStrike (Finite false c e) = Return ks ->
  (rescaled c e (-3) < 10 ^ 28)%N /\ ks = Finite false (rescaled c e (-3)) (-3).
Proof.
  unfold Option.quantizeStrike, Option.strikeQuantization.
  rewrite quantize_finite by (context_constants; lia).
  destruct (N.ltb_spec (rescaled c e (-3)) (10 ^ 28)) as [Hlt|Hge]; intros H.
  - split; [exact Hlt|]. inversion H. reflexivity.
  - discriminate.
Qed.

(** With valid arguments the constructor returns the instance with the
    quantized strike and multiplier. *)
Lemma Option_init_valid_returns
    (self : string -> option Currency -> string -> OptionType -> date ->
            Decimal -> Decimal -> Instrument)
    (symbol u : string) (cy : Currency) (ot : OptionType) (ex : date)
    (strike mult ks km : Decimal) :
  symbol <> "" -> u <> "" ->
  positive_finite strike = true -> positive_finite mult = true ->
  Option.quantizeStrike strike = Return ks ->
  Instrument.quantizeMultiplier mult = Return km ->
  Option.__init__ self u (Some cy) ot ex strike mult (Some symbol)
  = Return (self symbol (Some cy) u ot ex ks km).
Proof.
  intros Hsym Hu Hs Hm Hqs Hqm.
  destruct (positive_finite_inv strike Hs) as (c & e & -> & Hc).
  destruct (positive_finite_inv mult Hm) as (cm & em & -> & Hcm).
  apply quantizeStrike_returns in Hqs. destruct Hqs as [Hlt ->].
  apply quantizeMultiplier_returns in Hqm. destruct Hqm as [Hltm ->].
  destruct (Option_init_returns self u cy ot ex c e cm em (Some symbol))
    as (symbol' & Hret & Hsame); try assumption.
  - congruence.
  - rewrite Hret, (Hsame symbol eq_refl). reflexivity.
Qed.

(** ** Future options *)

(** C10: [FutureOption] takes its symbol from the caller and stores it as
    it is; it runs the validation of [Option], failing on an empty
    underlying, on a strike or a multiplier that is not finite or not above
    zero, and it stores the strike and the multiplier quantized as [Option]
    quantizes them. *)
Theorem FutureOption_construction
    (symbol u : string) (cur : option Currency) (ot : OptionType) (ex : date)
    (strike mult : Decimal) :
  (forall o,
      FutureOption.__init__ symbol u cur ot ex strike mult = Return o ->
      __class__ o = cls_FutureOption
      /\ Instrument.symbol o = symbol
      /\ exists ks km,
          Option.quantizeStrike strike = Return ks
          /\ Instrument.quantizeMultiplier mult = Return km
          /\ Option.strike o = Some ks
          /\ Instrument.multiplier o = km
          /\ Option.__init__ Option u cur ot ex strike mult (Some symbol)
             = Return (Option symbol cur u ot ex ks km))
  /\ (u = ""
      \/ (decimal.is_finite strike = false \/ decimal.le_0 strike = Return true)
      \/ (decimal.is_finite mult = false \/ decimal.le_0 mult = Return true) ->
      validation_error (FutureOption.__init__ symbol u cur ot ex strike mult))
  /\ (forall cy ks km,
         symbol <> "" -> u <> "" -> cur = Some cy ->
         positive_finite strike = true -> positive_finite mult = true ->
         Option.quantizeStrike strike = Return ks ->
         Instrument.quantizeMultiplier mult = Return km ->
         FutureOption.__init__ symbol u cur ot ex strike mult
         = Return (FutureOption symbol cur u ot ex ks km)).
Proof.
  unfold FutureOption.__init__. split; [|split].
  - intros o Hret.
    destruct (Option_init_cases FutureOption u cur ot ex strike mult (Some symbol))
      as [[v Hv] | [[Hinv _] | (sy & cy & ks & km & Hr & Hne & Hcur & Hu & Hsame
                                  & Hs & Hm & Hqs & Hqm)]];
      [rewrite Hv in Hret; discriminate | rewrite Hinv in Hret; discriminate |].
    rewrite Hr in Hret. inversion Hret; subst o; clear Hret.
    rewrite (Hsame symbol eq_refl) in *. subst cur.
    split; [reflexivity|]. split; [reflexivity|].
    exists ks, km. repeat split; try assumption.
    apply Option_init_valid_returns; assumption.
  - intros [-> | [Hs | Hm]].
    + eexists. apply Option_init_empty_underlying.
    + apply positive_finite_false_iff in Hs.
      destruct (string_dec u "") as [->|Hu];
        [eexists; apply Option_init_empty_underlying|].
      eexists. apply Option_init_bad_strike; assumption.
    + apply positive_finite_false_iff in Hm.
      destruct (string_dec u "") as [->|Hu];
        [eexists; apply Option_init_empty_underlying|].
      destruct (positive_finite strike) eqn:Hs.
      * eexists. apply Option_init_bad_multiplier; assumption.
      * eexists. apply Option_init_bad_strike; assumption.
  - intros cy ks km Hsym Hu -> Hs Hm Hqs Hqm.
    apply Option_init_valid_returns; assumption.
Qed.

Lemma FutureOption_construction_witness :
  FutureOption.__init__ "ESZ1 C4500" "ES" (Some USD) CALL date_2021_01_15
    (Finite false 45005 (-1)) (Finite false 50 0)
  = Return (FutureOption "ESZ1 C4500" (Some USD) "ES" CALL date_2021_01_15
                         (Finite false 4500500 (-3)) (Finite false 500 (-1)))
  /\ validation_error
       (FutureOption.__init__ "ESZ1 C4500" "" (Some USD) CALL date_2021_01_15
          (Finite false 45005 (-1)) (Finite false 50 0)).
Proof.
  split.
  - apply (proj2 (proj2 (FutureOption_construction "ESZ1 C4500" "ES" (Some USD) CALL
                           date_2021_01_15 (Finite false 45005 (-1)) (Finite false 50 0)))
                  USD (Finite false 4500500 (-3)) (Finite false 500 (-1)));
      try discriminate; reflexivity.
  - apply (proj1 (proj2 (FutureOption_construction "ESZ1 C4500" "" (Some USD) CALL
                           date_2021_01_15 (Finite false 45005 (-1)) (Finite false 50 0)))).
    left. reflexivity.
Defined.

(** ** The symbol and the currency of every instrument *)

Lemma Future_init_cases (symbol : string) (cur : option Currency)
    (mult : Decimal) (ex : date) :
  validation_error (Future.__init__ symbol cur mult ex)
  \/ (Future.__init__ symbol cur mult ex = Raise InvalidOperation
      /\ Instrument.quantizeMultiplier mult = Raise InvalidOperation)
  \/ (exists cy km,
         Future.__init__ symbol cur mult ex = Return (Future symbol (Some cy) km ex)
         /\ symbol <> "" /\ cur = Some cy
         /\ Instrument.quantizeMultiplier mult = Return km).
Proof.
  unfold Future.__init__. rewrite not_finite_or_le_0_spec.
  destruct (positive_finite mult) eqn:Hm; [|left; eexists; reflexivity].
  destruct (positive_finite_inv mult Hm) as (cm & em & -> & Hcm).
  cbn [negb raise_if bind Return].
  unfold Instrument.quantizeMultiplier, Instrument.multiplierQuantization.
  destruct (quantize_finite_cases false cm em (-1)) as [[Hlt Hq]|[Hge Hq]];
    [context_constants; lia | |]; rewrite Hq.
  - cbn [bind Return]. rewrite Instrument_init_spec.
    destruct (String.eqb_spec symbol ""); [left; eexists; reflexivity|].
    destruct cur as [cy|]; [|left; eexists; reflexivity].
    right. right. exists cy. eexists. repeat split; assumption.
  - right. left. split; reflexivity.
Qed.

Lemma Option_init_too_large
    (self : string -> option Currency -> string -> OptionType -> date ->
            Decimal -> Decimal -> Instrument)
    (u : string) (cur : option Currency) (ot : OptionType) (ex : date)
    (strike mult : Decimal) (sym : option string) :
  option_decimals_too_large u strike mult ->
  Option.__init__ self u cur ot ex strike mult sym = Raise InvalidOperation.
Proof.
  intros (Hu & Hs & Hm & Hq).
  destruct (positive_finite_inv strike Hs) as (c & e & -> & Hc).
  destruct (positive_finite_inv mult Hm) as (cm & em & -> & Hcm).
  rewrite Option_init_valid by assumption.
  unfold Option.quantizeStrike, Option.strikeQuantization,
    Instrument.quantizeMultiplier, Instrument.multiplierQuantization in Hq.
  destruct (quantize_finite_cases false c e (-3)) as [[Hlt Hqs]|[Hge Hqs]];
    [context_constants; lia | |].
  2:{ apply N.ltb_ge in Hge. rewrite Hge. reflexivity. }
  destruct (quantize_finite_cases false cm em (-1)) as [[Hltm Hqm]|[Hgem Hqm]];
    [context_constants; lia | |].
  - destruct Hq as [Hq|Hq]; [rewrite Hqs in Hq | rewrite Hqm in Hq]; discriminate.
  - apply N.ltb_lt in Hlt. apply N.ltb_ge in Hgem. rewrite Hlt, Hgem. reflexivity.
Qed.

(** With an empty symbol or without a currency [Option.__init__] fails,
    with InvalidOperation when a decimal cannot be quantized and with a
    [ValueError] otherwise. *)
Lemma Option_init_fails
    (self : string -> option Currency -> string -> OptionType -> date ->
            Decimal -> Decimal -> Instrument)
    (u : string) (cur : option Currency) (ot : OptionType) (ex : date)
    (strike mult : Decimal) (sym : option string) :
  sym = Some "" \/ cur = None ->
  fails_with (option_decimals_too_large u strike mult)
             (Option.__init__ self u cur ot ex strike mult sym).
Proof.
  intros Hbad. split; [apply Option_init_too_large|].
  intros Hsmall.
  destruct (Option_init_cases self u cur ot ex strike mult sym)
    as [[v Hv] | [[Hinv Hq] | (sy & cy & ks & km & Hr & Hne & Hcur & _ & Hsame & _)]].
  - exists v. exact Hv.
  - exfalso. apply Hsmall.
    assert (Hu : u <> "").
    { intros ->. rewrite Option_init_empty_underlying in Hinv. discriminate. }
    destruct (positive_finite strike) eqn:Hs.
    2:{ rewrite Option_init_bad_strike in Hinv by assumption. discriminate. }
    destruct (positive_finite mult) eqn:Hm.
    2:{ rewrite Option_init_bad_multiplier in Hinv by assumption. discriminate. }
    repeat split; assumption.
  - exfalso. destruct Hbad as [-> | ->]; [|discriminate].
    apply Hne. apply Hsame. reflexivity.
Qed.

Lemma Future_init_fails (symbol : string) (cur : option Currency)
    (mult : Decimal) (ex : date) :
  symbol = "" \/ cur = None ->
  fails_with (future_multiplier_too_large mult) (Future.__init__ symbol cur mult ex).
Proof.
  intros Hbad. split.
  - intros [Hm Hq]. unfold Future.__init__.
    rewrite not_finite_or_le_0_spec, Hm, Hq. reflexivity.
  - intros Hsmall.
    destruct (Future_init_cases symbol cur mult ex)
      as [[v Hv] | [[Hinv Hq] | (cy & km & Hr & Hne & Hcur & _)]].
    + exists v. exact Hv.
    + exfalso. apply Hsmall. split; [|exact Hq].
      destruct (positive_finite mult) eqn:Hm; [reflexivity|].
      unfold Future.__init__ in Hinv.
      rewrite not_finite_or_le_0_spec, Hm in Hinv. discriminate.
    + exfalso. destruct Hbad as [-> | ->]; [congruence | discriminate].
Qed.

(** C9, as the code has it: a stock with a non-empty symbol and a currency
    is made, reads as its symbol and has the multiplier 1; with an empty
    symbol or without a currency no constructor that takes them returns an
    instance: [Stock] and [Bond] stop with a [ValueError]; [Option],
    [FutureOption] and [Future] stop with InvalidOperation when the
    underlying, the strike and the multiplier pass their validations and the
    strike or the multiplier is too large to be quantized, and with a
    [ValueError] in every other case. *)
Theorem Instrument_symbol_and_currency_required
    (symbol : string) (currency : option Currency) :
  (forall cy, symbol <> "" -> currency = Some cy ->
      exists o,
        Stock.__init__ symbol currency = Return o
        /\ Instrument.__str__ o = symbol
        /\ Instrument.multiplier o = decimal.of_int 1)
  /\ (symbol = "" \/ currency = None ->
      validation_error (Stock.__init__ symbol currency)
      /\ (Stock.__init__ symbol currency
          = Raise (Value_Error (if (symbol =? "")%string
                                then EmptySymbol else MissingCurrency)))
      /\ (forall validateSymbol,
             validation_error (Bond.__init__ symbol currency validateSymbol))
      /\ (forall u ot ex strike mult,
             fails_with (option_decimals_too_large u strike mult)
               (Option.__init__ Option u currency ot ex strike mult (Some symbol)))
      /\ (forall u ot ex strike mult,
             fails_with (option_decimals_too_large u strike mult)
               (FutureOption.__init__ symbol u currency ot ex strike mult))
      /\ (forall mult ex,
             fails_with (future_multiplier_too_large mult)
               (Future.__init__ symbol currency mult ex)))
  /\ (currency = None ->
      forall u ot ex strike mult,
        fails_with (option_decimals_too_large u strike mult)
          (Option.__init__ Option u currency ot ex strike mult None)).
Proof.
  split; [|split].
  - intros cy Hs ->. exists (Stock symbol (Some cy)).
    unfold Stock.__init__, Instrument.__post_init__.
    apply String.eqb_neq in Hs. rewrite Hs. repeat split.
  - intros Hbad.
    assert (Hbad' : Some symbol = Some "" \/ currency = None)
      by (destruct Hbad as [-> | ->]; [left | right]; reflexivity).
    assert (Hstock : Stock.__init__ symbol currency
                     = Raise (Value_Error (if (symbol =? "")%string
                                           then EmptySymbol else MissingCurrency))).
    { unfold Stock.__init__, Instrument.__post_init__.
      destruct (String.eqb_spec symbol ""); [reflexivity|].
      destruct Hbad as [-> | ->]; [congruence | reflexivity]. }
    split; [eexists; exact Hstock|]. split; [exact Hstock|].
    split; [|split; [|split]].
    + intros v. unfold Bond.__init__, Bond.__post_init__.
      destruct (v && negb (Bond.validBondSymbol symbol)); [eexists; reflexivity|].
      cbn [raise_if bind Return]. unfold Instrument.__post_init__.
      destruct (String.eqb_spec symbol ""); [eexists; reflexivity|].
      destruct Hbad as [-> | ->]; [congruence | eexists; reflexivity].
    + intros u ot ex strike mult. apply Option_init_fails. exact Hbad'.
    + intros u ot ex strike mult. unfold FutureOption.__init__.
      apply Option_init_fails. exact Hbad'.
    + intros mult ex. apply Future_init_fails. exact Hbad.
  - intros Hnone u ot ex strike mult. apply Option_init_fails. right. exact Hnone.
Qed.

Lemma Instrument_symbol_and_currency_required_witness :
  (exists o,
      Stock.__init__ "AAPL" (Some USD) = Return o
      /\ Instrument.__str__ o = "AAPL"
      /\ Instrument.multiplier o = decimal.of_int 1)
  /\ validation_error (Stock.__init__ "" (Some USD))
  /\ validation_error (Stock.__init__ "AAPL" None)
  /\ FutureOption.__init__ "" "ES" (Some USD) CALL date_2021_01_15
       (Finite false 1 25) (Finite false 50 0) = Raise InvalidOperation
  /\ (exists v,
         FutureOption.__init__ "" "" (Some USD) CALL date_2021_01_15
           (Finite false 1 25) (Finite false 50 0) = Raise (Value_Error v)).
Proof.
  split; [|split; [|split; [|split]]].
  - apply (proj1 (Instrument_symbol_and_currency_required "AAPL" (Some USD)) USD);
      [discriminate | reflexivity].
  - apply (proj1 (proj2 (Instrument_symbol_and_currency_required "" (Some USD)))).
    left. reflexivity.
  - apply (proj1 (proj2 (Instrument_symbol_and_currency_required "AAPL" None))).
    right. reflexivity.
  - destruct (proj1 (proj2 (Instrument_symbol_and_currency_required "" (Some USD)))
                (or_introl eq_refl)) as (_ & _ & _ & _ & Hfo & _).
    apply (proj1 (Hfo "ES" CALL date_2021_01_15 (Finite false 1 25) (Finite false 50 0))).
    split; [discriminate|]. split; [reflexivity|]. split; [reflexivity|].
    left. vm_compute. reflexivity.
  - destruct (proj1 (proj2 (Instrument_symbol_and_currency_required "" (Some USD)))
                (or_introl eq_refl)) as (_ & _ & _ & _ & Hfo & _).
    apply (proj2 (Hfo "" CALL date_2021_01_15 (Finite false 1 25) (Finite false 50 0))).
    intros (Hu & _). apply Hu. reflexivity.
Defined.

(** C9 as stated fails where another argument is at fault too: with an
    empty symbol and a strike too large to be quantized the construction
    stops with InvalidOperation, which is not a [ValueError]. *)
Lemma FutureOption_empty_symbol_InvalidOperation :
  FutureOption.__init__ "" "ES" (Some USD) CALL date_2021_01_15
    (Finite false 1 25) (Finite false 50 0) = Raise InvalidOperation
  /\ ~ validation_error
         (FutureOption.__init__ "" "ES" (Some USD) CALL date_2021_01_15
            (Finite false 1 25) (Finite false 50 0)).
Proof.
  assert (H : FutureOption.__init__ "" "ES" (Some USD) CALL date_2021_01_15
                (Finite false 1 25) (Finite false 50 0) = Raise InvalidOperation)
    by (vm_compute; reflexivity).
  split; [exact H|]. intros [v Hv]. rewrite H in Hv. discriminate.
Qed.

(** ** Equality and hashing *)

Lemma Class_eqb_spec (a b : Class) : reflect (a = b) (Class_eqb a b).
Proof. destruct a, b; cbn; constructor; congruence. Qed.

Lemma currency_eqb_spec (a b : option Currency) : reflect (a = b) (currency_eqb a b).
Proof.
  destruct a as [x|], b as [y|]; cbn; try (constructor; congruence).
  destruct (Currency_eqb_spec x y); constructor; congruence.
Qed.

Lemma Instrument_eq_iff (a b : Instrument) :
  Instrument.eq a b = true
  <-> __class__ a = __class__ b
      /\ Instrument.symbol a = Instrument.symbol b
      /\ Instrument.currency a = Instrument.currency b.
Proof.
  unfold Instrument.eq, Instrument.__eq__.
  destruct (Class_eqb_spec (__class__ b) (__class__ a)) as [Hc|Hc].
  - rewrite andb_true_iff.
    destruct (String.eqb_spec (Instrument.symbol a) (Instrument.symbol b)),
      (currency_eqb_spec (Instrument.currency a) (Instrument.currency b));
      split; intros H; try (destruct H as [? ?]; discriminate);
      try (destruct H as (? & ? & ?); congruence); auto.
  - destruct (Class_eqb_spec (__class__ a) (__class__ b)) as [Hc'|Hc'];
      [congruence|].
    split; [discriminate | intros (? & _); congruence].
Qed.

(** C3, as the code has it: two instruments are equal exactly when they
    are of the same class and their symbols and currencies agree, and then
    they hash alike (the hash is that of the pair of symbol and currency);
    for [Stock] and [Bond] these are all the fields; the other attributes
    of an option or a future are not compared.  Two instruments with the
    same class and the same values of all attributes are equal. *)
Theorem Instrument_equality (a b : Instrument) :
  (Instrument.eq a b = true
   <-> __class__ a = __class__ b
       /\ Instrument.symbol a = Instrument.symbol b
       /\ Instrument.currency a = Instrument.currency b)
  /\ (Instrument.eq a b = true -> Instrument.hash_key a = Instrument.hash_key b)
  /\ (a = b -> Instrument.eq a b = true)
  /\ (__class__ a = cls_Stock \/ __class__ a = cls_Bond ->
      (Instrument.eq a b = true <-> a = b)).
Proof.
  assert (Heq : Instrument.eq a b = true
                <-> __class__ a = __class__ b
                    /\ Instrument.symbol a = Instrument.symbol b
                    /\ Instrument.currency a = Instrument.currency b).
  { unfold Instrument.eq, Instrument.__eq__.
    destruct (Class_eqb_spec (__class__ b) (__class__ a)) as [Hc|Hc].
    - rewrite andb_true_iff.
      destruct (String.eqb_spec (Instrument.symbol a) (Instrument.symbol b)),
        (currency_eqb_spec (Instrument.currency a) (Instrument.currency b));
        split; intros H; try (destruct H as [? ?]; discriminate);
        try (destruct H as (? & ? & ?); congruence); auto.
    - destruct (Class_eqb_spec (__class__ a) (__class__ b)) as [Hc'|Hc'];
        [congruence|].
      split; [discriminate | intros (? & _); congruence]. }
  split; [exact Heq|]. split; [|split].
  - intros H. apply Heq in H. destruct H as (_ & Hs & Hc).
    unfold Instrument.hash_key. congruence.
  - intros <-. apply Heq. repeat split.
  - intros Hcls. rewrite Heq. split.
    + intros (Hc & Hs & Hcur).
      destruct a, b; cbn in *; try discriminate; destruct Hcls; try discriminate;
        congruence.
    + intros <-. repeat split.
Qed.

Lemma Instrument_equality_witness :
  Instrument.eq (Stock "AAPL" (Some USD)) (Stock "AAPL" (Some USD)) = true
  /\ Instrument.eq (Stock "AAPL" (Some USD)) (Bond "AAPL" (Some USD)) = false.
Proof.
  split.
  - apply (proj1 (proj2 (proj2 (Instrument_equality (Stock "AAPL" (Some USD))
                                                    (Stock "AAPL" (Some USD)))))).
    reflexivity.
  - destruct (Instrument.eq (Stock "AAPL" (Some USD)) (Bond "AAPL" (Some USD))) eqn:H;
      [|reflexivity].
    apply (proj1 (Instrument_equality _ _)) in H. destruct H as (Hc & _). discriminate.
Defined.

(** C3 as stated fails: two options that differ in the multiplier get the
    same derived symbol, and are equal and hash alike. *)
Lemma Option_equality_ignores_multiplier :
  exists a b,
    Option.__init__ Option "AAPL" (Some USD) PUT date_2021_01_15
      (Finite false 15000 (-2)) (decimal.of_int 100) None = Return a
    /\ Option.__init__ Option "AAPL" (Some USD) PUT date_2021_01_15
         (Finite false 15000 (-2)) (decimal.of_int 10) None = Return b
    /\ Instrument.eq a b = true
    /\ Instrument.hash_key a = Instrument.hash_key b
    /\ Instrument.multiplier a <> Instrument.multiplier b.
Proof.
  do 2 eexists. split; [vm_compute; reflexivity|]. split; [vm_compute; reflexivity|].
  split; [reflexivity|]. split; [reflexivity|]. discriminate.
Qed.

(** ** Ordering *)

Lemma compare_Lt_lex (s t : string) : String.compare s t = Lt <-> lex_lt s t.
Proof.
  revert t. induction s as [|c s IH]; intros [|d t]; cbn.
  - split; [discriminate | intros H; inversion H].
  - split; [intros _; constructor | reflexivity].
  - split; [discriminate | intros H; inversion H].
  - unfold Ascii.compare.
    destruct (N.compare_spec (N_of_ascii c) (N_of_ascii d)) as [Heq|Hlt|Hgt].
    + assert (c = d) as ->.
      { rewrite <- (ascii_N_embedding c), <- (ascii_N_embedding d), Heq. reflexivity. }
      rewrite IH. split; [intros H; constructor; exact H|].
      intros H. inversion H; subst; [lia | assumption].
    + split; [intros _; constructor; exact Hlt | reflexivity].
    + split; [discriminate|]. intros H. inversion H; subst; [lia|lia].
Qed.

Lemma ltb_lex (s t : string) : (s <? t)%string = true <-> lex_lt s t.
Proof.
  rewrite <- compare_Lt_lex. unfold String.ltb.
  destruct (String.compare s t); split; congruence.
Qed.

Lemma lex_lt_irrefl (s : string) : ~ lex_lt s s.
Proof.
  induction s as [|c s IH]; intros H; inversion H; subst; [lia | auto].
Qed.

Lemma lex_lt_trans (s t u : string) : lex_lt s t -> lex_lt t u -> lex_lt s u.
Proof.
  intros Hst. revert u. induction Hst as [c t | c d s t Hcd | c s t Hst IH];
    intros u Htu; inversion Htu; subst.
  - constructor.
  - constructor.
  - apply lex_lt_head. lia.
  - apply lex_lt_head. assumption.
  - apply lex_lt_head. assumption.
  - apply lex_lt_tail. apply IH. assumption.
Qed.

Lemma lex_lt_trichotomy (s t : string) : lex_lt s t \/ s = t \/ lex_lt t s.
Proof.
  destruct (String.compare s t) eqn:Hc.
  - right. left. apply String.compare_eq_iff. exact Hc.
  - left. apply compare_Lt_lex. exact Hc.
  - right. right. apply compare_Lt_lex.
    rewrite String.compare_antisym, Hc. reflexivity.
Qed.

Lemma ltb_irrefl (s : string) : (s <? s)%string = false.
Proof.
  destruct (s <? s)%string eqn:H; [|reflexivity].
  apply ltb_lex in H. destruct (lex_lt_irrefl s H).
Qed.

Lemma ltb_trans (s t u : string) :
  (s <? t)%string = true -> (t <? u)%string = true -> (s <? u)%string = true.
Proof. rewrite !ltb_lex. apply lex_lt_trans. Qed.

Lemma ltb_asym (s t : string) : (s <? t)%string = true -> (t <? s)%string = false.
Proof.
  intros H. destruct (t <? s)%string eqn:H'; [|reflexivity].
  pose proof (ltb_trans s t s H H') as Hss. rewrite ltb_irrefl in Hss. discriminate.
Qed.

Lemma proper_subclass_iff (sub sup : Class) :
  operator.proper_subclass sub sup = true
  <-> sub = cls_FutureOption /\ sup = cls_Option.
Proof.
  destruct sub, sup; cbn; split; try discriminate; try (intros [? ?]; discriminate);
    auto.
Qed.

Lemma eq_false_of_symbols (a b : Instrument) :
  Instrument.symbol a <> Instrument.symbol b -> Instrument.eq a b = false.
Proof.
  intros Hs. destruct (Instrument.eq a b) eqn:He; [|reflexivity].
  apply Instrument_eq_iff in He. destruct He as (_ & He & _). contradiction.
Qed.

Lemma eq_false_of_classes (a b : Instrument) :
  __class__ a <> __class__ b -> Instrument.eq a b = false.
Proof.
  intros Hc. destruct (Instrument.eq a b) eqn:He; [|reflexivity].
  apply Instrument_eq_iff in He. destruct He as (He & _). contradiction.
Qed.

(** [a < b] holds when the symbol of [a] comes first, and also for an
    option and a future option with the same symbol, in this order. *)
Lemma operator_lt_iff (a b : Instrument) :
  operator.lt a b = true
  <-> lex_lt (Instrument.symbol a) (Instrument.symbol b)
      \/ (Instrument.symbol a = Instrument.symbol b
          /\ __class__ a = cls_Option /\ __class__ b = cls_FutureOption).
Proof.
  unfold operator.lt.
  destruct (operator.proper_subclass (__class__ b) (__class__ a)) eqn:Hsub.
  - apply proper_subclass_iff in Hsub. destruct Hsub as [Hb Ha].
    unfold Instrument.__gt__, Instrument.ne, Instrument.__lt__.
    rewrite (eq_false_of_classes b a) by congruence. cbn [negb]. rewrite andb_true_r.
    destruct (lex_lt_trichotomy (Instrument.symbol a) (Instrument.symbol b))
      as [Hlt | [Heq | Hgt]].
    + pose proof Hlt as Hlt'. apply ltb_lex, ltb_asym in Hlt'. rewrite Hlt'.
      split; [intros _; left; exact Hlt | reflexivity].
    + rewrite Heq, ltb_irrefl. split; [intros _; right; auto | reflexivity].
    + pose proof Hgt as Hgt'. apply ltb_lex in Hgt'. rewrite Hgt'. cbn.
      split; [discriminate|]. intros [Hlt | (Heq & _)].
      * destruct (lex_lt_irrefl _ (lex_lt_trans _ _ _ Hlt Hgt)).
      * rewrite Heq in Hgt. destruct (lex_lt_irrefl _ Hgt).
  - unfold Instrument.__lt__. rewrite ltb_lex. split; [left; assumption|].
    intros [Hlt | (_ & Ha & Hb)]; [exact Hlt|].
    assert (operator.proper_subclass (__class__ b) (__class__ a) = true)
      by (apply proper_subclass_iff; auto).
    congruence.
Qed.

(** C6, as the code has it: whatever the classes of [a] and [b], when the
    symbol of [a] comes before the symbol of [b] in the lexicographic order
    then [a < b], [a <= b], [b > a] and [b >= a] hold and the four converse
    comparisons do not; [a < b] holds exactly when the symbol of [a] comes
    first, or [a] is an option and [b] a future option with the same symbol
    (the reflected comparison of the subclass is tried first); [<] is
    irreflexive, asymmetric and transitive, and orders any two instruments
    whose symbols differ; [<=], [>] and [>=] agree with the order of the
    symbols on instruments whose symbols differ and on equal instruments. *)
Theorem Instrument_ordering (a b c : Instrument) :
  (lex_lt (Instrument.symbol a) (Instrument.symbol b) ->
   operator.lt a b = true /\ operator.le a b = true
   /\ operator.gt b a = true /\ operator.ge b a = true
   /\ operator.lt b a = false /\ operator.le b a = false
   /\ operator.gt a b = false /\ operator.ge a b = false)
  /\ (operator.lt a b = true
      <-> lex_lt (Instrument.symbol a) (Instrument.symbol b)
          \/ (Instrument.symbol a = Instrument.symbol b
              /\ __class__ a = cls_Option /\ __class__ b = cls_FutureOption))
  /\ operator.lt a a = false
  /\ (operator.lt a b = true -> operator.lt b a = false)
  /\ (operator.lt a b = true -> operator.lt b c = true -> operator.lt a c = true)
  /\ (operator.lt a b = true
      \/ Instrument.symbol a = Instrument.symbol b
      \/ operator.lt b a = true)
  /\ (Instrument.symbol a <> Instrument.symbol b ->
      operator.le a b = operator.lt a b
      /\ operator.gt a b = operator.lt b a
      /\ operator.ge a b = operator.lt b a)
  /\ (Instrument.eq a b = true ->
      operator.le a b = true /\ operator.ge a b = true
      /\ operator.lt a b = false /\ operator.gt a b = false).
Proof.
  assert (Hcompute : forall x y,
             (Instrument.symbol x <? Instrument.symbol y)%string = true ->
             operator.lt x y = true /\ operator.le x y = true
             /\ operator.gt y x = true /\ operator.ge y x = true
             /\ operator.lt y x = false /\ operator.le y x = false
             /\ operator.gt x y = false /\ operator.ge x y = false).
  { intros x y Hlt. pose proof (ltb_asym _ _ Hlt) as Hgt.
    assert (Hs : Instrument.symbol x <> Instrument.symbol y).
    { intros Heq. rewrite Heq, ltb_irrefl in Hlt. discriminate. }
    pose proof (eq_false_of_symbols x y Hs) as Hxy.
    assert (Hyx : Instrument.eq y x = false)
      by (apply eq_false_of_symbols; congruence).
    unfold operator.lt, operator.le, operator.gt, operator.ge,
      Instrument.__gt__, Instrument.__ge__, Instrument.__le__, Instrument.ne,
      Instrument.__lt__.
    rewrite Hlt, Hgt, Hxy, Hyx.
    destruct (operator.proper_subclass (__class__ y) (__class__ x)),
      (operator.proper_subclass (__class__ x) (__class__ y)); repeat split. }
  split; [intros Hlt; apply Hcompute, ltb_lex; exact Hlt|].
  split; [apply operator_lt_iff|].
  split.
  { destruct (operator.lt a a) eqn:H; [|reflexivity].
    apply operator_lt_iff in H. destruct H as [H | (_ & Ha & Hb)].
    - destruct (lex_lt_irrefl _ H).
    - congruence. }
  split.
  { intros Hab. destruct (operator.lt b a) eqn:Hba; [|reflexivity].
    apply operator_lt_iff in Hab, Hba.
    destruct Hab as [Hab | (Hs & Ha & Hb)], Hba as [Hba | (Hs' & Hb' & Ha')].
    - destruct (lex_lt_irrefl _ (lex_lt_trans _ _ _ Hab Hba)).
    - rewrite Hs' in Hab. destruct (lex_lt_irrefl _ Hab).
    - rewrite Hs in Hba. destruct (lex_lt_irrefl _ Hba).
    - congruence. }
  split.
  { rewrite !operator_lt_iff.
    intros [Hab | (Hs & Ha & Hb)] [Hbc | (Hs' & Hb' & Hc')].
    - left. eapply lex_lt_trans; eassumption.
    - left. rewrite <- Hs'. exact Hab.
    - left. rewrite Hs. exact Hbc.
    - congruence. }
  split.
  { rewrite !operator_lt_iff.
    destruct (lex_lt_trichotomy (Instrument.symbol a) (Instrument.symbol b))
      as [H | [H | H]]; auto. }
  split.
  { intros Hs.
    destruct (lex_lt_trichotomy (Instrument.symbol a) (Instrument.symbol b))
      as [H | [H | H]]; [| contradiction |]; apply ltb_lex in H.
    - destruct (Hcompute a b H) as (H1 & H2 & H3 & H4 & H5 & H6 & H7 & H8).
      rewrite H1, H2, H5, H7, H8. repeat split.
    - destruct (Hcompute b a H) as (H1 & H2 & H3 & H4 & H5 & H6 & H7 & H8).
      rewrite H1, H3, H4, H5, H6. repeat split. }
  intros He. pose proof He as He'. apply Instrument_eq_iff in He'.
  destruct He' as (Hc & Hs & _).
  assert (Hsub : operator.proper_subclass (__class__ b) (__class__ a) = false).
  { rewrite Hc. destruct (__class__ b); reflexivity. }
  unfold operator.lt, operator.le, operator.gt, operator.ge. rewrite Hsub.
  unfold Instrument.__gt__, Instrument.__ge__, Instrument.__le__, Instrument.ne,
    Instrument.__lt__.
  rewrite He, Hs, ltb_irrefl. repeat split.
Qed.

Lemma Instrument_ordering_witness :
  lex_lt (Instrument.symbol (Stock "AAPL" (Some USD)))
         (Instrument.symbol (Bond "MSFT" (Some USD)))
  /\ operator.lt (Stock "AAPL" (Some USD)) (Bond "MSFT" (Some USD)) = true
  /\ operator.ge (Bond "MSFT" (Some USD)) (Stock "AAPL" (Some USD)) = true
  /\ operator.lt (Bond "MSFT" (Some USD)) (Stock "AAPL" (Some USD)) = false.
Proof.
  assert (H : lex_lt (Instrument.symbol (Stock "AAPL" (Some USD)))
                     (Instrument.symbol (Bond "MSFT" (Some USD)))).
  { cbn. apply lex_lt_head. vm_compute. reflexivity. }
  split; [exact H|].
  destruct (proj1 (Instrument_ordering (Stock "AAPL" (Some USD)) (Bond "MSFT" (Some USD))
                     (Stock "AAPL" (Some USD))) H)
    as (H1 & _ & _ & H4 & H5 & _).
  repeat split; assumption.
Defined.

(** C6 as stated fails: a stock and a bond with the same symbol are not
    equal, so neither is [<=] the other, and each is [>] the other: the
    derived comparisons are not a total order. *)
Lemma Instrument_le_not_total :
  exists a b,
    Stock.__init__ "912828ZT0" (Some USD) = Return a
    /\ Bond.__init__ "912828ZT0" (Some USD) true = Return b
    /\ operator.le a b = false /\ operator.le b a = false
    /\ operator.gt a b = true /\ operator.gt b a = true.
Proof. do 2 eexists. repeat split. Qed.

(** An option is [<] a future option with the same symbol, and not the
    other way round, while a stock with that symbol is ordered with
    neither. *)
Example Option_lt_FutureOption :
  let a := Option "ESZ1" (Some USD) "ES" CALL date_2021_01_15
                  (Finite false 4500000 (-3)) (Finite false 500 (-1)) in
  let b := FutureOption "ESZ1" (Some USD) "ES" CALL date_2021_01_15
                        (Finite false 4500000 (-3)) (Finite false 500 (-1)) in
  let s := Stock "ESZ1" (Some USD) in
  operator.lt a b = true /\ operator.lt b a = false
  /\ operator.lt a s = false /\ operator.lt s a = false
  /\ operator.lt s b = false /\ operator.lt b s = false.
Proof. repeat split. Qed.

(** * Further properties of the code *)

(** ** The CUSIP pattern *)

Lemma at_end_iff (s : string) :
  re.at_end s = true <-> s = "" \/ s = String "010"%char "".
Proof.
  unfold re.at_end. rewrite orb_true_iff.
  split; intros [H|H]; [left | right | left | right];
    try (apply String.eqb_eq; exact H); apply String.eqb_eq in H; exact H.
Qed.

(** X1: [validBondSymbol] accepts the strings of the shape of a CUSIP, and those
    followed by one newline, which [$] lets pass; it accepts nothing
    else. *)
Theorem validBondSymbol_iff (symbol : string) :
  Bond.validBondSymbol symbol = true
  <-> exists body,
        cusip_shape body
        /\ (symbol = body \/ symbol = (body ++ String "010"%char "")%string).
Proof.
  unfold Bond.validBondSymbol, re.matches, Bond.regexCUSIP. split.
  - destruct symbol as [|c1 [|c2 [|c3 [|c4 [|c5 [|c6 [|c7 [|c8 [|c9 rest]]]]]]]]];
      cbn; try discriminate;
      repeat match goal with
             | |- context [if ?b then _ else _] =>
                 destruct b eqn:?; cbn; try discriminate
             end.
    intros Hend. apply at_end_iff in Hend.
    exists (String c1 (String c2 (String c3 (String c4 (String c5
              (String c6 (String c7 (String c8 (String c9 ""))))))))).
    split.
    + exists c1, c2, c3, c4, c5, c6, c7, c8, c9. repeat split; assumption.
    + destruct Hend as [-> | ->]; [left | right]; reflexivity.
  - intros (body & (c1 & c2 & c3 & c4 & c5 & c6 & c7 & c8 & c9 & -> & H1 & H2 & H3
                    & H4 & H5 & H6 & H7 & H8 & H9) & [-> | ->]);
      cbn; rewrite H1, H2, H3, H4, H5, H6, H7, H8, H9; reflexivity.
Qed.

Lemma validBondSymbol_iff_witness :
  Bond.validBondSymbol "912828ZT0" = true
  /\ Bond.validBondSymbol (String "9" (String "1" (String "2" (String "8" (String "2"
        (String "8" (String "Z" (String "T" (String "0" (String "010" "")))))))))) = true.
Proof.
  split; apply validBondSymbol_iff; exists "912828ZT0";
    (split; [exists "9"%char, "1"%char, "2"%char, "8"%char, "2"%char, "8"%char,
                    "Z"%char, "T"%char, "0"%char; repeat split |]);
    [left | right]; reflexivity.
Defined.

(** ** Bonds *)

Lemma validBondSymbol_nonempty (symbol : string) :
  Bond.validBondSymbol symbol = true -> symbol <> "".
Proof. intros H ->. discriminate. Qed.

(** X2: with validation enabled a bond is made exactly when the symbol has the
    shape of a CUSIP and a currency is given; the checks run in the order
    CUSIP, currency, so a bad symbol is reported also when the currency is
    missing, and the empty-symbol error is never reached. *)
Theorem Bond_validated_outcomes (symbol : string) (currency : option Currency) :
  (forall o, Bond.__init__ symbol currency true = Return o
             <-> o = Bond symbol currency
                 /\ Bond.validBondSymbol symbol = true /\ currency <> None)
  /\ (Bond.validBondSymbol symbol = true -> currency = None ->
      Bond.__init__ symbol currency true = Raise (Value_Error MissingCurrency))
  /\ Bond.__init__ symbol currency true <> Raise (Value_Error EmptySymbol).
Proof.
  unfold Bond.__init__, Bond.__post_init__.
  destruct (Bond.validBondSymbol symbol) eqn:Hv; cbn [andb negb raise_if bind Return].
  - pose proof (validBondSymbol_nonempty symbol Hv) as Hne.
    unfold Instrument.__post_init__. apply String.eqb_neq in Hne. rewrite Hne.
    destruct currency as [cy|]; cbn [raise_if bind Return].
    + split; [|split].
      * intros o. split.
        -- intros [= <-]. repeat split. discriminate.
        -- intros (-> & _ & _). reflexivity.
      * discriminate.
      * discriminate.
    + split; [|split].
      * intros o. split; [discriminate | intros (_ & _ & H); congruence].
      * reflexivity.
      * discriminate.
  - split; [|split].
    + intros o. split; [discriminate | intros (_ & H & _); discriminate].
    + discriminate.
    + discriminate.
Qed.

Lemma Bond_validated_outcomes_witness :
  Bond.validBondSymbol "912828ZT0" = true
  /\ Bond.__init__ "912828ZT0" (Some USD) true = Return (Bond "912828ZT0" (Some USD))
  /\ Bond.__init__ "912828ZT0" None true = Raise (Value_Error MissingCurrency).
Proof.
  split; [reflexivity|]. split.
  - apply (proj1 (Bond_validated_outcomes "912828ZT0" (Some USD))).
    repeat split. discriminate.
  - apply (proj1 (proj2 (Bond_validated_outcomes "912828ZT0" None))); reflexivity.
Defined.

(** X3: with validation disabled [Bond] accepts and refuses what [Stock]
    does, with the same error. *)
Theorem Bond_unvalidated_as_Stock (symbol : string) (currency : option Currency) :
  (Bond.__init__ symbol currency false = Return (Bond symbol currency)
   /\ Stock.__init__ symbol currency = Return (Stock symbol currency))
  \/ (exists e, Bond.__init__ symbol currency false = Raise e
                /\ Stock.__init__ symbol currency = Raise e).
Proof.
  unfold Bond.__init__, Bond.__post_init__, Stock.__init__.
  cbn [andb raise_if bind Return].
  destruct (Instrument.__post_init__ symbol currency) as [e|[]].
  - right. exists e. split; reflexivity.
  - left. split; reflexivity.
Qed.

(** ** Futures *)

(** X4: [Future.__init__] checks the multiplier first: one that is not finite
    or not above zero is reported whatever the symbol and the currency are.
    With a symbol and a currency, a finite multiplier above zero gives the
    future that keeps the symbol and the expiration and the multiplier
    rounded half to even to one decimal, when the rounded value fits the 28
    digits of the context, and InvalidOperation otherwise. *)
Theorem Future_construction
    (symbol : string) (cur : option Currency) (mult : Decimal) (ex : date) :
  (decimal.is_finite mult = false \/ decimal.le_0 mult = Return true ->
   Future.__init__ symbol cur mult ex
   = Raise (Value_Error (NonPositiveMultiplier mult)))
  /\ (forall (cm : N) (em : Z) (cy : Currency),
         mult = Finite false cm em -> cm <> 0%N -> symbol <> "" -> cur = Some cy ->
         exists n : N,
           rounds_half_even (magnitude cm em) (-1) n
           /\ Future.__init__ symbol cur mult ex
              = if (n <? 10 ^ 28)%N
                then Return (Future symbol cur (Finite false n (-1)) ex)
                else Raise InvalidOperation).
Proof.
  unfold Future.__init__. rewrite not_finite_or_le_0_spec. split.
  - intros Hbad. apply positive_finite_false_iff in Hbad. rewrite Hbad. reflexivity.
  - intros cm em cy -> Hcm Hs ->. cbn [positive_finite].
    apply N.eqb_neq in Hcm. rewrite Hcm. cbn [negb raise_if bind Return].
    exists (rescaled cm em (-1)). split; [apply rescaled_rounds|].
    unfold Instrument.quantizeMultiplier, Instrument.multiplierQuantization.
    rewrite quantize_finite by (context_constants; lia).
    destruct (rescaled cm em (-1) <? 10 ^ 28)%N; [|reflexivity].
    cbn [bind Return]. rewrite Instrument_init_spec.
    apply String.eqb_neq in Hs. rewrite Hs. reflexivity.
Qed.

Lemma Future_construction_witness :
  Future.__init__ "" None (Finite true 5 0) date_2021_01_15
  = Raise (Value_Error (NonPositiveMultiplier (Finite true 5 0)))
  /\ exists n : N,
      rounds_half_even (magnitude 5025 (-2)) (-1) n
      /\ Future.__init__ "ESH1" (Some USD) (Finite false 5025 (-2)) date_2021_01_15
         = if (n <? 10 ^ 28)%N
           then Return (Future "ESH1" (Some USD) (Finite false n (-1)) date_2021_01_15)
           else Raise InvalidOperation.
Proof.
  split.
  - apply (proj1 (Future_construction "" None (Finite true 5 0) date_2021_01_15)).
    right. reflexivity.
  - apply (proj2 (Future_construction "ESH1" (Some USD) (Finite false 5025 (-2))
                    date_2021_01_15) 5025%N (-2) USD);
      try reflexivity; discriminate.
Defined.

(** ** What every instance satisfies *)

Lemma Option_init_fields
    (self : string -> option Currency -> string -> OptionType -> date ->
            Decimal -> Decimal -> Instrument)
    (u : string) (cur : option Currency) (ot : OptionType) (ex : date)
    (strike mult : Decimal) (sym : option string) (o : Instrument) :
  Option.__init__ self u cur ot ex strike mult sym = Return o ->
  exists symbol cy ks km,
    o = self symbol (Some cy) u ot ex ks km
    /\ symbol <> "" /\ cur = Some cy /\ u <> ""
    /\ (forall s, sym = Some s -> symbol = s)
    /\ quantized 3 ks /\ quantized 1 km
    /\ Option.quantizeStrike strike = Return ks
    /\ Instrument.quantizeMultiplier mult = Return km.
Proof.
  intros Hret.
  destruct (Option_init_cases self u cur ot ex strike mult sym)
    as [[v Hv] | [[Hinv _] | (sy & cy & ks & km & Hr & Hne & Hcur & Hu & Hsame
                                & Hs & Hm & Hqs & Hqm)]];
    [rewrite Hv in Hret; discriminate | rewrite Hinv in Hret; discriminate |].
  rewrite Hr in Hret. inversion Hret; subst o; clear Hret.
  exists sy, cy, ks, km. repeat split; try assumption.
  - destruct (positive_finite_inv strike Hs) as (c & e & -> & Hc).
    destruct (quantizeStrike_returns c e ks Hqs) as [Hlt ->].
    eexists. split; [reflexivity | exact Hlt].
  - destruct (positive_finite_inv mult Hm) as (c & e & -> & Hc).
    destruct (quantizeMultiplier_returns c e km Hqm) as [Hlt ->].
    eexists. split; [reflexivity | exact Hlt].
Qed.

(** X5: every instance that a constructor returns has a non-empty symbol and a
    currency, and a multiplier that is finite and not negative.  An option
    or a future option has a non-empty underlying, a strike that is finite,
    not negative, with three decimals, and a multiplier with one decimal; a
    future has a multiplier with one decimal; the two currencies of a forex
    pair differ. *)
Theorem constructed_invariants (o : Instrument) :
  constructed o ->
  Instrument.symbol o <> ""
  /\ (exists cy, Instrument.currency o = Some cy)
  /\ (exists n e, Instrument.multiplier o = Finite false n e)
  /\ match o with
     | Option _ _ u _ _ k m | FutureOption _ _ u _ _ k m =>
         u <> "" /\ quantized 3 k /\ quantized 1 m
     | Future _ _ m _ => quantized 1 m
     | Forex _ c b => c <> Some b
     | Stock _ _ | Bond _ _ => True
     end.
Proof.
  intros Hc. destruct Hc as [s c o H | s c v o H | u c ot ex k m sy o H
                             | s u c ot ex k m o H | s c m ex o H | b q o H].
  - unfold Stock.__init__, Instrument.__post_init__ in H.
    destruct (String.eqb_spec s ""); [discriminate|].
    destruct c as [cy|]; [|discriminate]. inversion H; subst o. cbn.
    repeat split; eauto. do 2 eexists; reflexivity.
  - unfold Bond.__init__, Bond.__post_init__ in H.
    destruct (v && negb (Bond.validBondSymbol s)); [discriminate|].
    cbn [raise_if bind Return] in H. unfold Instrument.__post_init__ in H.
    destruct (String.eqb_spec s ""); [discriminate|].
    destruct c as [cy|]; [|discriminate]. inversion H; subst o. cbn.
    repeat split; eauto. do 2 eexists; reflexivity.
  - destruct (Option_init_fields _ _ _ _ _ _ _ _ _ H)
      as (symbol & cy & ks & km & -> & Hne & _ & Hu & _ & Hks & Hkm & _).
    cbn. repeat split; eauto.
    destruct Hkm as (n & -> & _). eauto.
  - unfold FutureOption.__init__ in H.
    destruct (Option_init_fields _ _ _ _ _ _ _ _ _ H)
      as (symbol & cy & ks & km & -> & Hne & _ & Hu & _ & Hks & Hkm & _).
    cbn. repeat split; eauto.
    destruct Hkm as (n & -> & _). eauto.
  - destruct (Future_init_cases s c m ex)
      as [[v Hv] | [[Hinv _] | (cy & km & Hr & Hne & Hcur & Hq)]];
      [rewrite Hv in H; discriminate | rewrite Hinv in H; discriminate |].
    rewrite Hr in H. inversion H; subst o. cbn.
    assert (Hkm : quantized 1 km).
    { destruct m as [[|] cm em | sg | sg sn].
      - unfold Future.__init__ in Hr. discriminate.
      - destruct (N.eqb_spec cm 0) as [->|Hcm].
        + unfold Future.__init__ in Hr. discriminate.
        + destruct (quantizeMultiplier_returns cm em km Hq) as [Hlt ->].
          eexists. split; [reflexivity | exact Hlt].
      - unfold Future.__init__ in Hr. discriminate.
      - unfold Future.__init__ in Hr. discriminate. }
    repeat split; eauto. destruct Hkm as (n & -> & _). eauto.
  - unfold Forex.__init__ in H.
    destruct (Currency_eqb_spec b q) as [|Hbq]; [discriminate|].
    cbn [raise_if bind Return] in H.
    rewrite Instrument_init_spec, Currency_name_nonempty in H.
    inversion H; subst o. cbn. repeat split; eauto.
    + destruct b, q; discriminate.
    + do 2 eexists; reflexivity.
    + congruence.
Qed.

Lemma constructed_invariants_witness :
  constructed (Forex "USDEUR" (Some EUR) USD)
  /\ Instrument.symbol (Forex "USDEUR" (Some EUR) USD) <> ""
  /\ Some EUR <> Some USD.
Proof.
  assert (H : constructed (Forex "USDEUR" (Some EUR) USD))
    by (apply (constructed_Forex USD EUR); reflexivity).
  split; [exact H|].
  destruct (constructed_invariants _ H) as (Hs & _ & _ & Hb).
  split; [exact Hs | exact Hb].
Defined.

(** ** Quantization, again *)

Lemma rescaled_same_exponent (n : N) (exp : Z) : rescaled n exp exp = n.
Proof.
  unfold rescaled. rewrite Z.leb_refl, Z.sub_diag. cbn. apply N.mul_1_r.
Qed.

Lemma quantize_again (d k : Decimal) :
  (Option.quantizeStrike d = Return k -> Option.quantizeStrike k = Return k)
  /\ (Instrument.quantizeMultiplier d = Return k ->
      Instrument.quantizeMultiplier k = Return k).
Proof.
  unfold Option.quantizeStrike, Option.strikeQuantization,
    Instrument.quantizeMultiplier, Instrument.multiplierQuantization.
  destruct d as [s c e | s | s [|]]; split; try discriminate;
    try (intros [= <-]; reflexivity);
    rewrite quantize_finite by (context_constants; lia);
    match goal with |- context [(?n <? 10 ^ 28)%N] =>
      destruct (N.ltb_spec n (10 ^ 28)) as [Hlt|]; [|discriminate] end;
    intros [= <-]; rewrite quantize_finite by (context_constants; lia);
    rewrite rescaled_same_exponent; apply N.ltb_lt in Hlt; rewrite Hlt; reflexivity.
Qed.

(** X6: quantizing is idempotent: what [quantizeStrike] returns it returns
    unchanged when given it again, and so does [quantizeMultiplier]. *)
Theorem quantize_idempotent (d k : Decimal) :
  (Option.quantizeStrike d = Return k -> Option.quantizeStrike k = Return k)
  /\ (Instrument.quantizeMultiplier d = Return k ->
      Instrument.quantizeMultiplier k = Return k).
Proof. exact (quantize_again d k). Qed.

Lemma quantize_idempotent_witness :
  Option.quantizeStrike (Finite false 15000 (-2)) = Return (Finite false 150000 (-3))
  /\ Option.quantizeStrike (Finite false 150000 (-3)) = Return (Finite false 150000 (-3)).
Proof.
  assert (H : Option.quantizeStrike (Finite false 15000 (-2))
              = Return (Finite false 150000 (-3))) by reflexivity.
  split; [exact H|].
  apply (proj1 (quantize_idempotent (Finite false 15000 (-2)) (Finite false 150000 (-3)))).
  exact H.
Defined.

(** X7: a strike with at most three decimals, and a multiplier with at most
    one, are stored with their exact value. *)
Theorem quantize_exact (s : bool) (c : N) (e : Z) (k : Decimal) :
  (-3 <= e -> Option.quantizeStrike (Finite s c e) = Return k ->
   exists n, k = Finite s n (-3) /\ (magnitude n (-3) == magnitude c e)%Q)
  /\ (-1 <= e -> Instrument.quantizeMultiplier (Finite s c e) = Return k ->
      exists n, k = Finite s n (-1) /\ (magnitude n (-1) == magnitude c e)%Q).
Proof.
  unfold Option.quantizeStrike, Option.strikeQuantization,
    Instrument.quantizeMultiplier, Instrument.multiplierQuantization.
  split; intros He; rewrite quantize_finite by (context_constants; lia);
    match goal with |- context [(?n <? 10 ^ 28)%N] =>
      destruct (n <? 10 ^ 28)%N; [|discriminate] end;
    intros [= <-]; eexists; (split; [reflexivity|]);
    unfold rescaled;
    match goal with |- context [?a <=? e] =>
      destruct (Z.leb_spec a e) as [_|Hgt]; [|lia] end;
    rewrite magnitude_shift;
    match goal with |- (magnitude c ?x == _)%Q => replace x with e by lia end;
    reflexivity.
Qed.

Lemma quantize_exact_witness :
  exists n, Finite false 150000 (-3) = Finite false n (-3)
            /\ (magnitude n (-3) == magnitude 15000 (-2))%Q.
Proof.
  apply (proj1 (quantize_exact false 15000 (-2) (Finite false 150000 (-3))));
    [lia | reflexivity].
Defined.

(** Two multiples of the step that are both nearest to [x] are neighbours,
    and [x] is half way between them. *)
Lemma nearest_neighbours (x p : Q) (n m : N) :
  (0 < p)%Q -> (n < m)%N ->
  (Qabs (x - inject_Z (Z.of_N n) * p) <= (1 # 2) * p)%Q ->
  (Qabs (x - inject_Z (Z.of_N m) * p) <= (1 # 2) * p)%Q ->
  m = (n + 1)%N
  /\ (Qabs (x - inject_Z (Z.of_N n) * p) == (1 # 2) * p)%Q
  /\ (Qabs (x - inject_Z (Z.of_N m) * p) == (1 # 2) * p)%Q.
Proof.
  intros Hp Hnm Hn Hm.
  apply Qabs_Qle_condition in Hn, Hm.
  assert (Hd : (inject_Z (Z.of_N m) * p - inject_Z (Z.of_N n) * p <= p)%Q) by lra.
  assert (Hle : (inject_Z (Z.of_N m - Z.of_N n) <= 1)%Q).
  { apply (Qmult_le_r _ _ p Hp). unfold Z.sub. rewrite inject_Z_plus, inject_Z_opp. lra. }
  assert (Hz : (Z.of_N m - Z.of_N n <= 1)%Z).
  { unfold Qle in Hle. cbn in Hle. lia. }
  assert (Hmn : m = (n + 1)%N) by lia.
  split; [exact Hmn|]. subst m.
  assert (Hs : (inject_Z (Z.of_N (n + 1)) * p == inject_Z (Z.of_N n) * p + p)%Q).
  { rewrite N2Z.inj_add, inject_Z_plus. change (inject_Z (Z.of_N 1)) with 1%Q. ring. }
  rewrite Hs in *.
  split.
  - rewrite Qabs_pos by lra. lra.
  - rewrite Qabs_neg by lra. lra.
Qed.

(** Rounding half to even determines its result. *)
Lemma rounds_half_even_unique (x : Q) (e : Z) (n m : N) :
  rounds_half_even x e n -> rounds_half_even x e m -> n = m.
Proof.
  intros [Hn Hn'] [Hm Hm']. unfold magnitude in *.
  pose proof (Qpow10_pos e) as Hp.
  destruct (N.lt_trichotomy n m) as [Hlt | [Heq | Hgt]]; [|exact Heq|]; exfalso.
  - destruct (nearest_neighbours x (10 ^ e) n m Hp Hlt Hn Hm) as (-> & Tn & Tm).
    specialize (Hn' Tn). specialize (Hm' Tm).
    rewrite N.add_1_r, N.even_succ, <- N.negb_even, Hn' in Hm'. discriminate.
  - destruct (nearest_neighbours x (10 ^ e) m n Hp Hgt Hm Hn) as (-> & Tm & Tn).
    specialize (Hn' Tn). specialize (Hm' Tm).
    rewrite N.add_1_r, N.even_succ, <- N.negb_even, Hm' in Hn'. discriminate.
Qed.

(** X8: the quantized strike and multiplier depend on the value of the
    argument only, not on how many trailing zeros it is written with. *)
Theorem quantize_by_value (s : bool) (c c' : N) (e e' : Z) :
  (magnitude c e == magnitude c' e')%Q ->
  Option.quantizeStrike (Finite s c e) = Option.quantizeStrike (Finite s c' e')
  /\ Instrument.quantizeMultiplier (Finite s c e)
     = Instrument.quantizeMultiplier (Finite s c' e').
Proof.
  intros Hv.
  assert (Hr : forall exp, rescaled c e exp = rescaled c' e' exp).
  { intros exp. apply (rounds_half_even_unique (magnitude c e) exp);
      [apply rescaled_rounds|].
    destruct (rescaled_rounds c' e' exp) as [H1 H2].
    unfold rounds_half_even. rewrite Hv. split; assumption. }
  unfold Option.quantizeStrike, Option.strikeQuantization,
    Instrument.quantizeMultiplier, Instrument.multiplierQuantization.
  rewrite !quantize_finite by (context_constants; lia).
  rewrite !Hr. split; reflexivity.
Qed.

Lemma quantize_by_value_witness :
  (magnitude 150 0 == magnitude 15000 (-2))%Q
  /\ Option.quantizeStrike (Finite false 150 0)
     = Option.quantizeStrike (Finite false 15000 (-2)).
Proof.
  assert (H : (magnitude 150 0 == magnitude 15000 (-2))%Q) by reflexivity.
  split; [exact H|]. apply (proj1 (quantize_by_value false 150 15000 0 (-2) H)).
Defined.

(** ** Options: rebuilding, and the part of the symbol *)

(** X10: an option built again from the attributes of an instance, with its
    symbol, is that instance again when the stored strike and multiplier
    are above zero; when the stored strike is zero the constructor refuses
    it. *)
Theorem Option_rebuild
    (u : string) (cur : option Currency) (ot : OptionType) (ex : date)
    (strike mult : Decimal) (sym : option string) (o : Instrument) :
  Option.__init__ Option u cur ot ex strike mult sym = Return o ->
  exists k,
    Option.strike o = Some k
    /\ Option.underlying o = Some u /\ Option.optionType o = Some ot
    /\ Option.expiration o = Some ex /\ Instrument.currency o = cur
    /\ (positive_finite k = true ->
        positive_finite (Instrument.multiplier o) = true ->
        Option.__init__ Option u cur ot ex k (Instrument.multiplier o)
                        (Some (Instrument.symbol o)) = Return o)
    /\ (positive_finite k = false ->
        Option.__init__ Option u cur ot ex k (Instrument.multiplier o)
                        (Some (Instrument.symbol o))
        = Raise (Value_Error (NonPositiveStrike k))).
Proof.
  intros Hret.
  destruct (Option_init_fields _ _ _ _ _ _ _ _ _ Hret)
    as (symbol & cy & ks & km & -> & Hne & -> & Hu & _ & _ & _ & Hqs & Hqm).
  exists ks. cbn. repeat split.
  - intros Hk Hm. apply Option_init_valid_returns; try assumption.
    + apply (proj1 (quantize_again strike ks)). exact Hqs.
    + apply (proj2 (quantize_again mult km)). exact Hqm.
  - intros Hk. apply Option_init_bad_strike; assumption.
Qed.

Lemma Option_rebuild_witness :
  Option.__init__ Option "AAPL" (Some USD) PUT date_2021_01_15
    (Finite false 150000 (-3)) (Finite false 1000 (-1)) (Some "AAPL  210115P00150000")
  = Return (Option "AAPL  210115P00150000" (Some USD) "AAPL" PUT date_2021_01_15
                   (Finite false 150000 (-3)) (Finite false 1000 (-1))).
Proof.
  destruct (Option_rebuild "AAPL" (Some USD) PUT date_2021_01_15
              (Finite false 15000 (-2)) Option.multiplier_default None
              (Option "AAPL  210115P00150000" (Some USD) "AAPL" PUT date_2021_01_15
                      (Finite false 150000 (-3)) (Finite false 1000 (-1))))
    as (k & Hk & _ & _ & _ & _ & Hre & _); [vm_compute; reflexivity|].
  injection Hk as <-. apply Hre; reflexivity.
Defined.

(** X11: whether an option can be made does not depend on the symbol, as long
    as it is not the empty string: with a symbol of its own the instance has
    that symbol, whatever the other attributes are, and without one it has
    the derived symbol; the other attributes are the same. *)
Theorem Option_symbol_independent
    (u : string) (cur : option Currency) (ot : OptionType) (ex : date)
    (strike mult : Decimal) (symbol : string) :
  symbol <> "" ->
  (forall o, Option.__init__ Option u cur ot ex strike mult (Some symbol) = Return o ->
     Instrument.symbol o = symbol
     /\ exists s' k m,
         o = Option symbol cur u ot ex k m
         /\ Option.__init__ Option u cur ot ex strike mult None
            = Return (Option s' cur u ot ex k m))
  /\ (forall o, Option.__init__ Option u cur ot ex strike mult None = Return o ->
        exists s' k m,
          o = Option s' cur u ot ex k m
          /\ Option.__init__ Option u cur ot ex strike mult (Some symbol)
             = Return (Option symbol cur u ot ex k m)).
Proof.
  intros Hsym.
  assert (Hboth : forall sym o,
             Option.__init__ Option u cur ot ex strike mult sym = Return o ->
             exists s1 s2 k m,
               o = Option s1 cur u ot ex k m
               /\ (forall s, sym = Some s -> s1 = s)
               /\ Option.__init__ Option u cur ot ex strike mult None
                  = Return (Option s2 cur u ot ex k m)
               /\ Option.__init__ Option u cur ot ex strike mult (Some symbol)
                  = Return (Option symbol cur u ot ex k m)).
  { intros sym o Hret.
    destruct (Option_init_Return_inv _ _ _ _ _ _ _ _ _ Hret) as (Hu & Hs & Hm).
    destruct (Option_init_fields _ _ _ _ _ _ _ _ _ Hret)
      as (s1 & cy & ks & km & -> & Hne & -> & _ & Hsame & _ & _ & Hqs & Hqm).
    destruct (positive_finite_inv strike Hs) as (c & e & -> & Hc).
    destruct (positive_finite_inv mult Hm) as (cm & em & -> & Hcm).
    destruct (quantizeStrike_returns c e ks Hqs) as [Hlt ->].
    destruct (quantizeMultiplier_returns cm em km Hqm) as [Hltm ->].
    destruct (Option_init_returns Option u cy ot ex c e cm em None)
      as (s2 & Hnone & _); try assumption; [discriminate|].
    destruct (Option_init_returns Option u cy ot ex c e cm em (Some symbol))
      as (s3 & Hsome & Hs3); try assumption; [congruence|].
    rewrite (Hs3 symbol eq_refl) in Hsome.
    exists s1, s2. do 2 eexists. split; [reflexivity|].
    split; [exact Hsame|]. split; [exact Hnone | exact Hsome]. }
  split; intros o Hret;
    destruct (Hboth _ o Hret) as (s1 & s2 & k & m & -> & Hsame & Hnone & Hsome).
  - rewrite (Hsame symbol eq_refl). split; [reflexivity|].
    exists s2, k, m. split; [reflexivity | exact Hnone].
  - exists s1, k, m. split; [reflexivity | exact Hsome].
Qed.

Lemma Option_symbol_independent_witness :
  exists s' k m,
    Option "anything" (Some USD) "AAPL" PUT date_2021_01_15
           (Finite false 150000 (-3)) (Finite false 1000 (-1))
    = Option "anything" (Some USD) "AAPL" PUT date_2021_01_15 k m
    /\ Option.__init__ Option "AAPL" (Some USD) PUT date_2021_01_15
         (Finite false 15000 (-2)) Option.multiplier_default None
       = Return (Option s' (Some USD) "AAPL" PUT date_2021_01_15 k m).
Proof.
  assert (Hne : "anything" <> "") by discriminate.
  destruct (proj1 (Option_symbol_independent "AAPL" (Some USD) PUT date_2021_01_15
                     (Finite false 15000 (-2)) Option.multiplier_default
                     "anything" Hne)
              (Option "anything" (Some USD) "AAPL" PUT date_2021_01_15
                      (Finite false 150000 (-3)) (Finite false 1000 (-1))))
    as (_ & H); [vm_compute; reflexivity | exact H].
Defined.

(** The instance that [Option.__init__] returns when it derives the
    symbol. *)
Lemma Option_init_derived
    (self : string -> option Currency -> string -> OptionType -> date ->
            Decimal -> Decimal -> Instrument)
    (u : string) (cur : option Currency) (ot : OptionType) (ex : date)
    (strike mult : Decimal) (o : Instrument) :
  Option.__init__ self u cur ot ex strike mult None = Return o ->
  exists c e cm em cy d,
    strike = Finite false c e /\ c <> 0%N
    /\ mult = Finite false cm em /\ cur = Some cy
    /\ (rescaled c e (-3) < 10 ^ 28)%N
    /\ decimal.mul strike (decimal.of_int 1000) = Return d
    /\ o = self (str.ljust 6 u ++ datetime.strftime_y_m_d ex ++
                 OptionType_value ot ++ decimal.format_08_0f d)%string
                (Some cy) u ot ex
                (Finite false (rescaled c e (-3)) (-3))
                (Finite false (rescaled cm em (-1)) (-1)).
Proof.
  intros Hret.
  destruct (Option_init_Return_inv _ _ _ _ _ _ _ _ _ Hret) as (Hu & Hs & Hm).
  destruct (positive_finite_inv strike Hs) as (c & e & -> & Hc).
  destruct (positive_finite_inv mult Hm) as (cm & em & -> & Hcm).
  rewrite Option_init_valid in Hret by assumption.
  destruct (N.ltb_spec (rescaled c e (-3)) (10 ^ 28)) as [Hlt|]; [|discriminate].
  destruct (rescaled cm em (-1) <? 10 ^ 28)%N; [|discriminate].
  destruct (mul_1000_returns c e Hc (quantized_adjusted c e Hc Hlt)) as (c' & e' & Hmul).
  rewrite Hmul in Hret. cbn [bind Return] in Hret.
  rewrite Instrument_init_spec, derived_symbol_nonempty in Hret by assumption.
  destruct cur as [cy|]; [|discriminate].
  inversion Hret; subst o; clear Hret.
  exists c, e, cm, em, cy, (Finite false c' e'). repeat split; assumption.
Qed.

(** X12: the derived symbol of an option with a strike of at most 25 digits has
    [max(6, len(underlying)) + 7 + max(8, digits)] characters, where
    [digits] counts the digits of the quantized strike times 1000: it has
    the 21 characters of an OCC symbol exactly when the underlying has at
    most six characters and the quantized strike is below 100000. *)
Theorem Option_symbol_length
    (u : string) (cur : option Currency) (ot : OptionType) (ex : date)
    (c : N) (e : Z) (mult : Decimal) (o : Instrument) :
  Option.__init__ Option u cur ot ex (Finite false c e) mult None = Return o ->
  decimal.ndigits c <= 25 -> datetime.valid ex = true ->
  exists n : N,
    Option.strike o = Some (Finite false n (-3))
    /\ String.length (Instrument.symbol o)
       = (Nat.max 6 (String.length u) + 7
          + Nat.max 8 (Z.to_nat (decimal.ndigits n)))%nat
    /\ (String.length (Instrument.symbol o) = 21%nat
        <-> (String.length u <= 6)%nat /\ (n < 10 ^ 8)%N).
Proof.
  intros Hret Hnd Hex.
  destruct (Option_init_derived _ _ _ _ _ _ _ _ Hret)
    as (c0 & e0 & cm & em & cy & d & [= <- <-] & Hc & -> & -> & Hlt & Hmul & ->).
  destruct (mul_1000_format c e Hc Hnd (quantized_adjusted c e Hc Hlt))
    as (d' & Hmul' & Hfmt).
  rewrite Hmul' in Hmul. injection Hmul as <-.
  exists (rescaled c e (-3)). cbn [Option.strike Instrument.symbol].
  split; [reflexivity|].
  assert (Hlen : String.length
                   (str.ljust 6 u ++ datetime.strftime_y_m_d ex ++
                    OptionType_value ot ++ decimal.format_08_0f d')%string
                 = (Nat.max 6 (String.length u) + 7
                    + Nat.max 8 (Z.to_nat (decimal.ndigits (rescaled c e (-3)))))%nat).
  { rewrite !length_append, length_ljust, (length_strftime ex Hex), Hfmt, length_zfill.
    unfold decimal.ndigits. rewrite Nat2Z.id. destruct ot; cbn [OptionType_value String.length]; lia. }
  split; [exact Hlen|]. rewrite Hlen.
  pose proof (ndigits_pos (rescaled c e (-3))) as Hpos.
  pose proof (ndigits_le_iff (rescaled c e (-3)) 8 ltac:(lia)) as Hiff.
  change (Z.to_N 8) with 8%N in Hiff. split.
  - intros H. split; [lia|]. apply Hiff. lia.
  - intros [Hu Hn]. apply Hiff in Hn. lia.
Qed.

Lemma Option_symbol_length_witness :
  String.length "AAPL  210115P00150000" = 21%nat
  <-> (String.length "AAPL" <= 6)%nat /\ (150000 < 10 ^ 8)%N.
Proof.
  destruct (Option_symbol_length "AAPL" (Some USD) PUT date_2021_01_15
              15000 (-2) Option.multiplier_default
              (Option "AAPL  210115P00150000" (Some USD) "AAPL" PUT date_2021_01_15
                      (Finite false 150000 (-3)) (Finite false 1000 (-1))))
    as (n & Hn & _ & Hiff).
  - vm_compute. reflexivity.
  - vm_compute. discriminate.
  - reflexivity.
  - injection Hn as <-. exact Hiff.
Defined.

(** X13: the derived symbol shows the year without its century: two options
    that differ only in the century of the expiration get the same symbol,
    and compare equal. *)
Theorem Option_symbol_century
    (u : string) (cur : option Currency) (ot : OptionType) (ex ex' : date)
    (strike mult : Decimal) (o : Instrument) :
  (datetime.year ex mod 100 = datetime.year ex' mod 100)%N ->
  datetime.month ex = datetime.month ex' ->
  datetime.day ex = datetime.day ex' ->
  Option.__init__ Option u cur ot ex strike mult None = Return o ->
  exists o',
    Option.__init__ Option u cur ot ex' strike mult None = Return o'
    /\ Option.expiration o' = Some ex'
    /\ Instrument.symbol o' = Instrument.symbol o
    /\ Instrument.eq o o' = true.
Proof.
  intros Hy Hm Hd Hret.
  assert (Hfmt : datetime.strftime_y_m_d ex = datetime.strftime_y_m_d ex').
  { unfold datetime.strftime_y_m_d. rewrite Hy, Hm, Hd. reflexivity. }
  destruct (Option_init_derived _ _ _ _ _ _ _ _ Hret)
    as (c & e & cm & em & cy & d & -> & Hc & -> & -> & Hlt & Hmul & ->).
  destruct (Option_init_Return_inv _ _ _ _ _ _ _ _ _ Hret) as (Hu & _ & Hpm).
  assert (Hcm : cm <> 0%N).
  { cbn in Hpm. destruct (N.eqb_spec cm 0); [discriminate | assumption]. }
  assert (Hltm : (rescaled cm em (-1) <? 10 ^ 28)%N = true).
  { rewrite Option_init_valid in Hret by assumption.
    apply N.ltb_lt in Hlt. rewrite Hlt in Hret.
    destruct (rescaled cm em (-1) <? 10 ^ 28)%N; [reflexivity | discriminate]. }
  eexists. split.
  - rewrite Option_init_valid by assumption.
    apply N.ltb_lt in Hlt. rewrite Hlt, Hltm, Hmul. cbn [bind Return].
    rewrite Instrument_init_spec, derived_symbol_nonempty by assumption.
    reflexivity.
  - cbn [Option.expiration Instrument.symbol]. split; [reflexivity|].
    split; [rewrite Hfmt; reflexivity|].
    apply Instrument_eq_iff. cbn [Instrument.symbol Instrument.currency __class__].
    rewrite Hfmt. repeat split.
Qed.

Lemma Option_symbol_century_witness :
  exists o',
    Option.__init__ Option "AAPL" (Some USD) PUT
      {| datetime.year := 2121; datetime.month := 1; datetime.day := 15 |}
      (Finite false 15000 (-2)) Option.multiplier_default None = Return o'
    /\ Instrument.symbol o' = "AAPL  210115P00150000".
Proof.
  destruct (Option_symbol_century "AAPL" (Some USD) PUT date_2021_01_15
              {| datetime.year := 2121; datetime.month := 1; datetime.day := 15 |}
              (Finite false 15000 (-2)) Option.multiplier_default
              (Option "AAPL  210115P00150000" (Some USD) "AAPL" PUT date_2021_01_15
                      (Finite false 150000 (-3)) (Finite false 1000 (-1))))
    as (o' & Hret & _ & Hsym & _); try reflexivity.
  exists o'. split; [exact Hret | exact Hsym].
Defined.

(** ** The comparisons that [total_ordering] derives, and equality *)

Lemma Instrument_eq_sym (a b : Instrument) : Instrument.eq a b = Instrument.eq b a.
Proof.
  destruct (Instrument.eq a b) eqn:Hab, (Instrument.eq b a) eqn:Hba; try reflexivity.
  - apply Instrument_eq_iff in Hab. destruct Hab as (H1 & H2 & H3).
    assert (Instrument.eq b a = true) by (apply Instrument_eq_iff; auto).
    congruence.
  - apply Instrument_eq_iff in Hba. destruct Hba as (H1 & H2 & H3).
    assert (Instrument.eq a b = true) by (apply Instrument_eq_iff; auto).
    congruence.
Qed.

Lemma Instrument_eq_trans (a b c : Instrument) :
  Instrument.eq a b = true -> Instrument.eq b c = true -> Instrument.eq a c = true.
Proof.
  rewrite !Instrument_eq_iff. intros (H1 & H2 & H3) (H4 & H5 & H6).
  repeat split; congruence.
Qed.

(** X15: [==] is an equivalence relation on instruments, also across classes,
    and instruments that are equal can replace one another, on either side,
    in every comparison: [==], [!=], the operators [<], [<=], [>], [>=] and
    the methods behind them. *)
Theorem Instrument_eq_equivalence (a b c : Instrument) :
  Instrument.eq a a = true
  /\ Instrument.eq a b = Instrument.eq b a
  /\ (Instrument.eq a b = true -> Instrument.eq b c = true -> Instrument.eq a c = true)
  /\ (Instrument.eq a b = true ->
      Forall (fun cmp : Instrument -> Instrument -> bool =>
                cmp a c = cmp b c /\ cmp c a = cmp c b)
             comparisons).
Proof.
  split; [apply Instrument_eq_iff; repeat split|].
  split; [apply Instrument_eq_sym|].
  split; [apply Instrument_eq_trans|].
  intros Hab.
  assert (Hac : Instrument.eq a c = Instrument.eq b c).
  { destruct (Instrument.eq a c) eqn:Hac, (Instrument.eq b c) eqn:Hbc; try reflexivity.
    - rewrite Instrument_eq_sym in Hab.
      rewrite (Instrument_eq_trans b a c Hab Hac) in Hbc. discriminate.
    - rewrite (Instrument_eq_trans a b c Hab Hbc) in Hac. discriminate. }
  assert (Hca : Instrument.eq c a = Instrument.eq c b)
    by (rewrite (Instrument_eq_sym c a), (Instrument_eq_sym c b); exact Hac).
  apply Instrument_eq_iff in Hab. destruct Hab as (Hc & Hs & _).
  unfold comparisons.
  repeat constructor;
    unfold operator.lt, operator.le, operator.gt, operator.ge,
      Instrument.__le__, Instrument.__gt__, Instrument.__ge__, Instrument.ne,
      Instrument.__lt__;
    rewrite ?Hc, ?Hs, ?Hac, ?Hca; reflexivity.
Qed.

Lemma Instrument_eq_equivalence_witness :
  ESZ1_call <> ESZ1_put /\ Instrument.eq ESZ1_call ESZ1_put = true
  /\ Forall (fun cmp : Instrument -> Instrument -> bool =>
               cmp ESZ1_call ESZ1_future_call = cmp ESZ1_put ESZ1_future_call
               /\ cmp ESZ1_future_call ESZ1_call = cmp ESZ1_future_call ESZ1_put)
            comparisons.
Proof.
  assert (He : Instrument.eq ESZ1_call ESZ1_put = true) by reflexivity.
  split; [discriminate|]. split; [exact He|].
  exact (proj2 (proj2 (proj2
           (Instrument_eq_equivalence ESZ1_call ESZ1_put ESZ1_future_call))) He).
Defined.

(** X16: the derived [<=] is reflexive, transitive, and antisymmetric up to
    [==]; [>] is its negation; of two instruments one is [>=] the other;
    and [a < b] gives [a <= b], [b > a] and [b >= a]. *)
Theorem total_ordering_derived (a b c : Instrument) :
  Instrument.__le__ a a = true
  /\ (Instrument.__le__ a b = true -> Instrument.__le__ b c = true ->
      Instrument.__le__ a c = true)
  /\ (Instrument.__le__ a b = true -> Instrument.__le__ b a = true ->
      Instrument.eq a b = true)
  /\ Instrument.__gt__ a b = negb (Instrument.__le__ a b)
  /\ (Instrument.__ge__ a b = true \/ Instrument.__ge__ b a = true)
  /\ (Instrument.__lt__ a b = true ->
      Instrument.__le__ a b = true /\ Instrument.__gt__ b a = true
      /\ Instrument.__ge__ b a = true).
Proof.
  unfold Instrument.__le__, Instrument.__gt__, Instrument.__ge__, Instrument.ne,
    Instrument.__lt__.
  assert (Hsym : forall x y, Instrument.eq x y = true ->
                             Instrument.symbol x = Instrument.symbol y).
  { intros x y H. apply Instrument_eq_iff in H. tauto. }
  split.
  { rewrite ltb_irrefl. apply Instrument_eq_iff. repeat split. }
  split.
  { rewrite !orb_true_iff. intros [Hab|Hab] [Hbc|Hbc].
    - left. eapply ltb_trans; eassumption.
    - left. rewrite <- (Hsym _ _ Hbc). exact Hab.
    - left. rewrite (Hsym _ _ Hab). exact Hbc.
    - right. eapply Instrument_eq_trans; eassumption. }
  split.
  { rewrite !orb_true_iff. intros [Hab|Hab] [Hba|Hba]; try assumption.
    - rewrite (ltb_asym _ _ Hab) in Hba. discriminate.
    - rewrite Instrument_eq_sym. exact Hba. }
  split.
  { destruct (Instrument.symbol a <? Instrument.symbol b)%string eqn:Hlt.
    - reflexivity.
    - reflexivity. }
  split.
  { destruct (Instrument.symbol a <? Instrument.symbol b)%string eqn:Hlt.
    - right. rewrite (ltb_asym _ _ Hlt). reflexivity.
    - left. reflexivity. }
  intros Hlt. rewrite Hlt, (ltb_asym _ _ Hlt). cbn.
  repeat split.
  destruct (Instrument.eq b a) eqn:He; [|reflexivity].
  rewrite (Hsym _ _ He), ltb_irrefl in Hlt. discriminate.
Qed.

Lemma total_ordering_derived_witness :
  Instrument.__lt__ (Stock "AAPL" (Some USD)) (Bond "MSFT" (Some USD)) = true
  /\ Instrument.__le__ (Stock "AAPL" (Some USD)) (Bond "MSFT" (Some USD)) = true
  /\ Instrument.__gt__ (Bond "MSFT" (Some USD)) (Stock "AAPL" (Some USD)) = true.
Proof.
  assert (H : Instrument.__lt__ (Stock "AAPL" (Some USD)) (Bond "MSFT" (Some USD)) = true)
    by reflexivity.
  split; [exact H|].
  destruct (total_ordering_derived (Stock "AAPL" (Some USD)) (Bond "MSFT" (Some USD))
              (Stock "AAPL" (Some USD))) as (_ & _ & _ & _ & _ & Hlt).
  destruct (Hlt H) as (Hle & Hgt & _). split; assumption.
Defined.

(** ** Forex pairs *)

(** X17: a pair and its inverse are both made when the two currencies differ;
    they are different instruments, each the other's base and quote
    exchanged, and both have the multiplier 1. *)
Theorem Forex_inverse (base quote : Currency) :
  base <> quote ->
  exists o o',
    Forex.__init__ base quote = Return o
    /\ Forex.__init__ quote base = Return o'
    /\ Instrument.eq o o' = false
    /\ Forex.baseCurrency o = Forex.quoteCurrency o'
    /\ Forex.quoteCurrency o = Forex.baseCurrency o'
    /\ Instrument.multiplier o = decimal.of_int 1
    /\ Instrument.multiplier o' = decimal.of_int 1.
Proof.
  intros Hne. unfold Forex.__init__.
  destruct (Currency_eqb_spec base quote) as [|_]; [contradiction|].
  destruct (Currency_eqb_spec quote base) as [|_]; [congruence|].
  cbn [raise_if bind Return]. rewrite !Instrument_init_spec, !Currency_name_nonempty.
  do 2 eexists. split; [reflexivity|]. split; [reflexivity|].
  split; [|repeat split].
  destruct (Instrument.eq _ _) eqn:He; [|reflexivity].
  apply Instrument_eq_iff in He. destruct He as (_ & _ & Hc). cbn in Hc. congruence.
Qed.

Lemma Forex_inverse_witness :
  USD <> EUR
  /\ exists o o',
      Forex.__init__ USD EUR = Return o /\ Forex.__init__ EUR USD = Return o'
      /\ Instrument.eq o o' = false.
Proof.
  assert (H : USD <> EUR) by discriminate.
  split; [exact H|].
  destruct (Forex_inverse USD EUR H) as (o & o' & H1 & H2 & H3 & _).
  exists o, o'. repeat split; assumption.
Defined.

(** ** The order of the validations of an option *)

(** X14: [Option.__init__] reports the first fault in the order underlying,
    strike, multiplier, symbol, currency: an empty underlying whatever the
    other arguments are; then the strike; then the multiplier; and, once the
    strike and the multiplier are quantized, an empty symbol before a
    missing currency. *)
Theorem Option_validation_order
    (u : string) (cur : option Currency) (ot : OptionType) (ex : date)
    (strike mult : Decimal) (sym : option string) :
  (u = "" ->
   Option.__init__ Option u cur ot ex strike mult sym
   = Raise (Value_Error EmptyUnderlying))
  /\ (u <> "" -> positive_finite strike = false ->
      Option.__init__ Option u cur ot ex strike mult sym
      = Raise (Value_Error (NonPositiveStrike strike)))
  /\ (u <> "" -> positive_finite strike = true -> positive_finite mult = false ->
      Option.__init__ Option u cur ot ex strike mult sym
      = Raise (Value_Error (NonPositiveMultiplier mult)))
  /\ (forall ks km,
         u <> "" -> positive_finite strike = true -> positive_finite mult = true ->
         Option.quantizeStrike strike = Return ks ->
         Instrument.quantizeMultiplier mult = Return km ->
         (sym = Some "" ->
          Option.__init__ Option u cur ot ex strike mult sym
          = Raise (Value_Error EmptySymbol))
         /\ (sym <> Some "" -> cur = None ->
             Option.__init__ Option u cur ot ex strike mult sym
             = Raise (Value_Error MissingCurrency))).
Proof.
  split; [intros ->; apply Option_init_empty_underlying|].
  split; [apply Option_init_bad_strike|].
  split; [apply Option_init_bad_multiplier|].
  intros ks km Hu Hs Hm Hqs Hqm.
  destruct (positive_finite_inv strike Hs) as (c & e & -> & Hc).
  destruct (positive_finite_inv mult Hm) as (cm & em & -> & Hcm).
  destruct (quantizeStrike_returns c e ks Hqs) as [Hlt _].
  destruct (quantizeMultiplier_returns cm em km Hqm) as [Hltm _].
  rewrite Option_init_valid by assumption.
  pose proof Hlt as Hlt'. apply N.ltb_lt in Hlt', Hltm. rewrite Hlt', Hltm.
  split.
  - intros ->. cbn [bind Return]. rewrite Instrument_init_spec. reflexivity.
  - intros Hsym ->. destruct sym as [s|].
    + cbn [bind Return]. rewrite Instrument_init_spec.
      destruct (String.eqb_spec s ""); [congruence | reflexivity].
    + destruct (mul_1000_returns c e Hc (quantized_adjusted c e Hc Hlt))
        as (c' & e' & Hmul).
      rewrite Hmul. cbn [bind Return].
      rewrite Instrument_init_spec, derived_symbol_nonempty by assumption.
      reflexivity.
Qed.

Lemma Option_validation_order_witness :
  Option.__init__ Option "" None PUT date_2021_01_15
    (Finite true 1 0) (NaN false false) (Some "")
  = Raise (Value_Error EmptyUnderlying)
  /\ Option.__init__ Option "AAPL" None PUT date_2021_01_15
       (Finite true 1 0) (NaN false false) (Some "")
     = Raise (Value_Error (NonPositiveStrike (Finite true 1 0)))
  /\ Option.__init__ Option "AAPL" None PUT date_2021_01_15
       (Finite false 15000 (-2)) Option.multiplier_default (Some "")
     = Raise (Value_Error EmptySymbol).
Proof.
  split; [|split].
  - apply (proj1 (Option_validation_order "" None PUT date_2021_01_15
                    (Finite true 1 0) (NaN false false) (Some ""))).
    reflexivity.
  - apply (proj1 (proj2 (Option_validation_order "AAPL" None PUT date_2021_01_15
                           (Finite true 1 0) (NaN false false) (Some ""))));
      [discriminate | reflexivity].
  - apply (proj2 (proj2 (proj2
             (Option_validation_order "AAPL" None PUT date_2021_01_15
                (Finite false 15000 (-2)) Option.multiplier_default (Some ""))))
           (Finite false 150000 (-3)) (Finite false 1000 (-1)));
      try reflexivity; discriminate.
Defined.

(** ** Quantization keeps the order *)

(** Rounding half to even keeps the order of the values. *)
Lemma rounds_half_even_monotone (x y : Q) (e : Z) (n m : N) :
  (x <= y)%Q -> rounds_half_even x e n -> rounds_half_even y e m -> (n <= m)%N.
Proof.
  intros Hxy [Hn Hn'] [Hm Hm']. unfold magnitude in *.
  pose proof (Qpow10_pos e) as Hp. set (p := (10 ^ e)%Q) in *.
  destruct (N.le_gt_cases n m) as [Hle|Hgt]; [exact Hle|]. exfalso.
  pose proof Hn as Bn. pose proof Hm as Bm.
  apply Qabs_Qle_condition in Bn, Bm.
  assert (Hd : (inject_Z (Z.of_N n) * p - inject_Z (Z.of_N m) * p <= p)%Q) by lra.
  assert (Hle : (inject_Z (Z.of_N n - Z.of_N m) <= 1)%Q).
  { apply (Qmult_le_r _ _ p Hp). unfold Z.sub. rewrite inject_Z_plus, inject_Z_opp. lra. }
  assert (Hz : (Z.of_N n - Z.of_N m <= 1)%Z).
  { unfold Qle in Hle. cbn in Hle. lia. }
  assert (Hnm : n = (m + 1)%N) by lia. subst n.
  assert (Hs : (inject_Z (Z.of_N (m + 1)) * p == inject_Z (Z.of_N m) * p + p)%Q).
  { rewrite N2Z.inj_add, inject_Z_plus. change (inject_Z (Z.of_N 1)) with 1%Q. ring. }
  assert (Tm : (Qabs (y - inject_Z (Z.of_N m) * p) == (1 # 2) * p)%Q)
    by (rewrite Qabs_pos by lra; lra).
  assert (Tn : (Qabs (x - inject_Z (Z.of_N (m + 1)) * p) == (1 # 2) * p)%Q)
    by (rewrite Qabs_neg by lra; lra).
  specialize (Hm' Tm). specialize (Hn' Tn).
  rewrite N.add_1_r, N.even_succ, <- N.negb_even, Hm' in Hn'. discriminate.
Qed.

(** X9: quantization keeps the order of strikes and of multipliers: of two
    finite values that are not negative, the larger one is not stored as
    the smaller. *)
Theorem quantize_monotone (c c' : N) (e e' : Z) (n n' : N) :
  (magnitude c e <= magnitude c' e')%Q ->
  (Option.quantizeStrike (Finite false c e) = Return (Finite false n (-3)) ->
   Option.quantizeStrike (Finite false c' e') = Return (Finite false n' (-3)) ->
   (n <= n')%N)
  /\ (Instrument.quantizeMultiplier (Finite false c e) = Return (Finite false n (-1)) ->
      Instrument.quantizeMultiplier (Finite false c' e') = Return (Finite false n' (-1)) ->
      (n <= n')%N).
Proof.
  intros Hle. split; intros H H'.
  - apply quantizeStrike_returns in H, H'.
    destruct H as [_ [= ->]], H' as [_ [= ->]].
    eapply rounds_half_even_monotone; [exact Hle | apply rescaled_rounds..].
  - apply quantizeMultiplier_returns in H, H'.
    destruct H as [_ [= ->]], H' as [_ [= ->]].
    eapply rounds_half_even_monotone; [exact Hle | apply rescaled_rounds..].
Qed.

Lemma quantize_monotone_witness :
  (magnitude 10004 (-2) <= magnitude 10016 (-2))%Q /\ (1000 <= 1002)%N.
Proof.
  assert (H : (magnitude 10004 (-2) <= magnitude 10016 (-2))%Q)
    by (vm_compute; discriminate).
  split; [exact H|].
  apply (proj2 (quantize_monotone 10004 10016 (-2) (-2) 1000 1002 H)); reflexivity.
Defined.
